(** * AI-Snip, [util.py]: model wrappers, usage accounting, completion log

    A shallow embedding of [src/util.py] and the properties of its
    specification.

    Conventions of the embedding.
    - Python [int] is [Z]; Python [float] is the primitive binary64 [float].
    - Python [str] is [string]; every character is a code point below 256.
    - Python values that travel as JSON (messages, the responses of the
      local inference server) are the type [value]; a [dict] is an
      association list in insertion order, with string keys; the numbers
      among them are integers.
    - A raised exception is the [Raise] case of [result].
    - [self.stats] and the files on disk are threaded through the monad
      [M]; what the backend answers to one call is an argument of that
      call. *)

From Stdlib Require Import ZArith List String Ascii Bool Lia DecimalString.
From Stdlib Require Import PrimFloat SpecFloat FloatOps.
From stdpp Require Import gmap strings.

Set Warnings "-inexact-float,-register-all".
Open Scope Z_scope.

(** ** Python values and exceptions *)

Inductive value :=
| VNone
| VBool (b : bool)
| VInt (z : Z)
| VStr (s : string)
| VList (l : list value)
| VDict (d : list (string * value)).

Inductive exn :=
| KeyError (key : value)
| IndexError
| TypeError
| AttributeError (attr : string)
| AssertionError
| ValueError (msg : string)
| OverflowError
| IsADirectoryError (path : string)
| ClientError (msg : string).

Inductive result (A : Type) :=
| Ok (a : A)
| Raise (e : exn).
Arguments Ok {A} a.
Arguments Raise {A} e.

#[global] Instance result_ret : MRet result := fun A a => Ok a.
#[global] Instance result_bind : MBind result := fun A B k r =>
  match r with
  | Ok a => k a
  | Raise e => Raise e
  end.

Module Py.

(** [needle in hay] on strings. *)
Fixpoint str_in (needle hay : string) : bool :=
  String.prefix needle hay ||
  match hay with
  | EmptyString => false
  | String _ rest => str_in needle rest
  end.

(** [s[n:]] on strings, for [n >= 0]. *)
Fixpoint str_drop (n : nat) (s : string) : string :=
  match n, s with
  | O, _ => s
  | S _, EmptyString => EmptyString
  | S n', String _ rest => str_drop n' rest
  end.

(** [d[k]] on a dict with string keys. *)
Fixpoint dict_lookup (d : list (string * value)) (k : string) : option value :=
  match d with
  | [] => None
  | (k', v) :: rest => if String.eqb k' k then Some v else dict_lookup rest k
  end.

(** [d[k] = v]: an existing key keeps its position, a new key goes last. *)
Fixpoint dict_set (d : list (string * value)) (k : string) (v : value)
  : list (string * value) :=
  match d with
  | [] => [(k, v)]
  | (k', v') :: rest =>
      if String.eqb k' k then (k', v) :: rest else (k', v') :: dict_set rest k v
  end.

Definition dict_contains (d : list (string * value)) (k : string) : bool :=
  match dict_lookup d k with Some _ => true | None => false end.

(** [l[i]] on a sequence: negative indices count from the end. *)
Definition seq_index {A} (l : list A) (i : Z) : result A :=
  let n := Z.of_nat (length l) in
  let j := if i <? 0 then i + n else i in
  if (j <? 0) || (n <=? j) then Raise IndexError
  else match nth_error l (Z.to_nat j) with
       | Some a => Ok a
       | None => Raise IndexError
       end.

Definition chars (s : string) : list value :=
  map (fun c => VStr (String c EmptyString)) (list_ascii_of_string s).

(** [v[k]]. *)
Definition getitem (v k : value) : result value :=
  match v with
  | VDict d =>
      match k with
      | VStr s =>
          match dict_lookup d s with
          | Some x => Ok x
          | None => Raise (KeyError k)
          end
      | VList _ | VDict _ => Raise TypeError
      | _ => Raise (KeyError k)
      end
  | VList l =>
      match k with
      | VInt i => seq_index l i
      | VBool b => seq_index l (Z.b2z b)
      | _ => Raise TypeError
      end
  | VStr s =>
      match k with
      | VInt i => seq_index (chars s) i
      | VBool b => seq_index (chars s) (Z.b2z b)
      | _ => Raise TypeError
      end
  | _ => Raise TypeError
  end.

(** [v[n:]] for a literal [n >= 0]. *)
Definition slice_from (v : value) (n : nat) : result value :=
  match v with
  | VStr s => Ok (VStr (str_drop n s))
  | VList l => Ok (VList (skipn n l))
  | _ => Raise TypeError
  end.

(** The elements [for m in v] visits. *)
Definition iter (v : value) : result (list value) :=
  match v with
  | VList l => Ok l
  | VStr s => Ok (chars s)
  | VDict d => Ok (map (fun kv => VStr (fst kv)) d)
  | _ => Raise TypeError
  end.

(** [n + v] for an [int] [n]: [bool] is a subclass of [int]. *)
Definition int_add (n : Z) (v : value) : result Z :=
  match v with
  | VInt z => Ok (n + z)
  | VBool b => Ok (n + Z.b2z b)
  | _ => Raise TypeError
  end.

(** [float(n)]: round to nearest, ties to even; [OverflowError] beyond
    the range of binary64. *)
Definition int_to_float (n : Z) : result float :=
  let f := SF2Prim (binary_normalize prec emax n 0 false) in
  if is_infinity f then Raise OverflowError else Ok f.

(** [n * x] for an [int] [n] and [x] a [float] or [None]. *)
Definition int_mul (n : Z) (x : option float) : result float :=
  match x with
  | None => Raise TypeError
  | Some f => nf ← int_to_float n; Ok (nf * f)%float
  end.

End Py.

(** ** [json.dumps] with its default arguments

    Separators [", "] and [": "], no indentation, [ensure_ascii=True]:
    inside a string every character outside [' '..'~'], the double quote and
    the backslash are escaped. *)

Module Json.

Definition dquote : ascii := "034"%char.
Definition backslash : ascii := "\"%char.

Definition hex_digit (n : N) : ascii :=
  nth (N.to_nat n) (list_ascii_of_string "0123456789abcdef") "0"%char.

Definition escape_char (c : ascii) : string :=
  let n := N_of_ascii c in
  if (n =? 34)%N then String backslash (String dquote EmptyString)
  else if (n =? 92)%N then String backslash (String backslash EmptyString)
  else if (n =? 10)%N then String backslash "n"
  else if (n =? 13)%N then String backslash "r"
  else if (n =? 9)%N then String backslash "t"
  else if (n =? 8)%N then String backslash "b"
  else if (n =? 12)%N then String backslash "f"
  else if (32 <=? n)%N && (n <=? 126)%N then String c EmptyString
  else String backslash
         ("u00" +:+ String (hex_digit (n / 16)) (String (hex_digit (n mod 16)) EmptyString)).

Fixpoint escape (s : string) : string :=
  match s with
  | EmptyString => EmptyString
  | String c rest => escape_char c +:+ escape rest
  end.

Definition encode_str (s : string) : string :=
  String dquote (escape s +:+ String dquote EmptyString).

Definition encode_int (z : Z) : string :=
  NilEmpty.string_of_int (Z.to_int z).

Fixpoint dumps (v : value) : string :=
  match v with
  | VNone => "null"
  | VBool true => "true"
  | VBool false => "false"
  | VInt z => encode_int z
  | VStr s => encode_str s
  | VList l => "[" +:+ String.concat ", " (map dumps l) +:+ "]"
  | VDict d =>
      "{" +:+ String.concat ", "
                (map (fun kv => encode_str (fst kv) +:+ ": " +:+ dumps (snd kv)) d)
          +:+ "}"
  end.

End Json.

Definition newline : ascii := "010"%char.


(** ** What the backend client libraries hand back

    The client libraries are external: a call into one is the function the
    caller supplies for that call, from the request to a response or a
    raised exception. *)

(** A lazily produced sequence (a stream of chunks, a generator): the items
    it yields, then either exhaustion or a raised exception. *)
Record lazy_seq (A : Type) := LazySeq { items : list A; raised : option exn }.
Arguments LazySeq {A} items raised.
Arguments items {A} l.
Arguments raised {A} l.

Module OpenAI.

Record CompletionUsage := { prompt_tokens : Z; completion_tokens : Z }.

(** [content] is the attribute [.content]; [dict] is what the method
    [.dict()] returns. *)
Record ChatCompletionMessage := { content : value; dict : value }.

Record Choice := { message : ChatCompletionMessage }.

Record ChatCompletion := { choices : list Choice; usage : option CompletionUsage }.

Record ChoiceDelta := { delta_content : value }.
Record ChunkChoice := { delta : ChoiceDelta }.
Record ChatCompletionChunk := { chunk_choices : list ChunkChoice }.

(** [client.chat.completions.create(model=, messages=, **kwargs)], the same
    with [stream=True], and [client.beta.chat.completions.parse(model=,
    messages=, response_format=)]. *)
Record Client := {
  chat_completions_create : string -> list value -> result ChatCompletion;
  chat_completions_create_stream :
    string -> list value -> result (lazy_seq ChatCompletionChunk);
  beta_chat_completions_parse :
    string -> list value -> string -> result ChatCompletion
}.

(** [response.usage.<field>]: [usage] is optional in the library. *)
Definition usage_field (f : CompletionUsage -> Z) (r : ChatCompletion) : result Z :=
  match usage r with
  | Some u => Ok (f u)
  | None => Raise (AttributeError "usage")
  end.

End OpenAI.

Module Ollama.

(** [client.chat(model=, messages=, **kwargs)] and the same with
    [stream=True]; responses and chunks are subscripted like dicts. *)
Record Client := {
  chat : string -> list value -> result value;
  chat_stream : string -> list value -> result (lazy_seq value)
}.

End Ollama.

(** ** The wrapper object, the files, and the monad of method bodies *)

Record Stats := { requests : Z; input_tokens : Z; completion_tokens : Z }.

Record wrapper := { model_name : string; log_file : option string; stats : Stats }.

Inductive node :=
| File (text : string)
| Dir.

Record world := { self : wrapper; files : gmap string node }.

Definition M (A : Type) : Type := world -> result A * world.

#[global] Instance M_ret : MRet M := fun A a w => (Ok a, w).
#[global] Instance M_bind : MBind M := fun A B k m w =>
  match m w with
  | (Ok a, w') => k a w'
  | (Raise e, w') => (Raise e, w')
  end.

Definition raise {A} (e : exn) : M A := fun w => (Raise e, w).

Definition lift {A} (r : result A) : M A := fun w => (r, w).

Definition get_self : M wrapper := fun w => (Ok (self w), w).

Definition set_stats (s : Stats) : M unit := fun w =>
  (Ok tt,
   {| self := {| model_name := model_name (self w);
                 log_file := log_file (self w);
                 stats := s |};
      files := files w |}).

(** [self.stats["requests"] += 1] *)
Definition incr_requests : M unit :=
  me ← get_self;
  let s := stats me in
  set_stats {| requests := requests s + 1;
               input_tokens := input_tokens s;
               completion_tokens := completion_tokens s |}.

(** [self.stats["input_tokens"] += rhs]: the right-hand side is evaluated
    after the counter is read and before it is stored. *)
Definition add_input_tokens (rhs : Z -> result Z) : M unit :=
  me ← get_self;
  let s := stats me in
  n ← lift (rhs (input_tokens s));
  set_stats {| requests := requests s;
               input_tokens := n;
               completion_tokens := completion_tokens s |}.

(** [self.stats["completion_tokens"] += rhs] *)
Definition add_completion_tokens (rhs : Z -> result Z) : M unit :=
  me ← get_self;
  let s := stats me in
  n ← lift (rhs (completion_tokens s));
  set_stats {| requests := requests s;
               input_tokens := input_tokens s;
               completion_tokens := n |}.

(** [with open(path, "a") as f: f.write(text)]: the file is created when it
    does not exist; a directory cannot be opened. Paths are flat names. *)
Definition append_file (path text : string) : M unit := fun w =>
  match files w !! path with
  | Some Dir => (Raise (IsADirectoryError path), w)
  | Some (File old) =>
      (Ok tt, {| self := self w; files := <[path := File (old +:+ text)]> (files w) |})
  | None =>
      (Ok tt, {| self := self w; files := <[path := File text]> (files w) |})
  end.

(** [json.dumps(msg_copy) + ",\n"] *)
Definition log_line (msg_copy : list value) : string :=
  Json.dumps (VList msg_copy) +:+ String "," (String newline EmptyString).

(** [with open(self.log_file, "a") as f: f.write(json.dumps(msg_copy) + ",\n")] *)
Definition write_log (path : string) (msg_copy : list value) : M unit :=
  append_file path (log_line msg_copy).

(** The text of a file; empty when there is no such file. *)
Definition file_text (fs : gmap string node) (path : string) : string :=
  match fs !! path with
  | Some (File text) => text
  | _ => EmptyString
  end.

(** One method call on a wrapper, as a caller issues it, with the client
    behaviour the call meets. *)
Inductive call (Client : Type) :=
| Complete (client : Client) (messages : list value)
| StreamComplete (client : Client) (messages : list value)
| StructuredComplete (client : Client) (messages : list value) (structure_class : string).
Arguments Complete {Client} client messages.
Arguments StreamComplete {Client} client messages.
Arguments StructuredComplete {Client} client messages structure_class.

(** The calls that are one exchange with the backend each; a streaming call
    is not. *)
Definition is_exchange {Client} (c : call Client) : bool :=
  match c with
  | StreamComplete _ _ => false
  | _ => true
  end.

(** ** [stream_wrapper] *)

(** [for response in stream: yield response.choices[0].delta.content] *)
Fixpoint stream_wrapper_items (chunks : list OpenAI.ChatCompletionChunk)
    (end_of_stream : option exn) : lazy_seq value :=
  match chunks with
  | [] => LazySeq [] end_of_stream
  | response :: rest =>
      match Py.seq_index (OpenAI.chunk_choices response) 0 with
      | Ok c =>
          let tail := stream_wrapper_items rest end_of_stream in
          LazySeq (OpenAI.delta_content (OpenAI.delta c) :: items tail) (raised tail)
      | Raise e => LazySeq [] (Some e)
      end
  end.

Definition stream_wrapper (stream : lazy_seq OpenAI.ChatCompletionChunk) : lazy_seq value :=
  stream_wrapper_items (items stream) (raised stream).

(** ** class [ModelWrapper] *)

Module ModelWrapper.

(** [__init__]; the client is not stored, every call is given the one it
    talks to. *)
Definition init (model_name : string) (log_file : option string) : wrapper :=
  {| model_name := model_name;
     log_file := log_file;
     stats := {| requests := 0; input_tokens := 0; completion_tokens := 0 |} |}.

(** [response.choices[0]] *)
Definition first_choice (response : OpenAI.ChatCompletion) : result OpenAI.Choice :=
  Py.seq_index (OpenAI.choices response) 0.

(** The block [if self.log_file is not None: ...] that [complete] and
    [structured_complete] both carry. *)
Definition log_exchange (messages : list value) (response : OpenAI.ChatCompletion)
  : M unit :=
  me ← get_self;
  match log_file me with
  | Some path =>
      c ← lift (first_choice response);
      let msg_copy := messages ++ [OpenAI.dict (OpenAI.message c)] in
      write_log path msg_copy
  | None => mret tt
  end.

(** The three [self.stats[...] += ...] lines of both methods. *)
Definition account (response : OpenAI.ChatCompletion) : M unit :=
  incr_requests;;
  add_input_tokens
    (fun n => d ← OpenAI.usage_field OpenAI.prompt_tokens response; Ok (n + d));;
  add_completion_tokens
    (fun n => d ← OpenAI.usage_field OpenAI.completion_tokens response; Ok (n + d)).

Definition complete (client : OpenAI.Client) (messages : list value) : M value :=
  me ← get_self;
  response ← lift (OpenAI.chat_completions_create client (model_name me) messages);
  account response;;
  log_exchange messages response;;
  c ← lift (first_choice response);
  mret (OpenAI.content (OpenAI.message c)).

Definition stream_complete (client : OpenAI.Client) (messages : list value)
  : M (lazy_seq value) :=
  me ← get_self;
  response ←
    lift (OpenAI.chat_completions_create_stream client (model_name me) messages);
  mret (stream_wrapper response).

Definition structured_complete (client : OpenAI.Client) (messages : list value)
    (structure_class : string) : M OpenAI.ChatCompletionMessage :=
  me ← get_self;
  response ←
    lift (OpenAI.beta_chat_completions_parse client (model_name me) messages
            structure_class);
  account response;;
  log_exchange messages response;;
  c ← lift (first_choice response);
  mret (OpenAI.message c).

(** The cost table of [compute_cost], consulted when no price is given. *)
Definition lookup_prices (name : string) : result (option float * option float) :=
  if Py.str_in "gpt-4o" name then
    if Py.str_in "mini" name then
      Ok (Some (0.000165 / 1000)%float, Some (0.00066 / 1000)%float)
    else if Py.str_in "2024-08-06" name then
      Ok (Some (0.0025 / 1000)%float, Some (0.010 / 1000)%float)
    else
      Ok (Some (0.005 / 1000)%float, Some (0.015 / 1000)%float)
  else if Py.str_in "gpt-35" name then
    Ok (Some (0.0005 / 1000)%float, Some (0.0015 / 1000)%float)
  else
    Raise (ValueError ("Unknown model name: " +:+ name
                       +:+ ". Please provide input_token_cost and output_token_cost.")).

(** [None] is an argument left out or passed as [None]. *)
Definition compute_cost (me : wrapper) (input_token_cost output_token_cost : option float)
  : result float :=
  prices ←
    match input_token_cost with
    | None =>
        match output_token_cost with
        | Some _ => Raise AssertionError
        | None => lookup_prices (model_name me)
        end
    | Some _ => Ok (input_token_cost, output_token_cost)
    end;
  a ← Py.int_mul (input_tokens (stats me)) (fst prices);
  b ← Py.int_mul (completion_tokens (stats me)) (snd prices);
  Ok (a + b)%float.

(** The usage figures the backend reports in its response. *)
Definition reported_usage (name : string) (c : call OpenAI.Client)
  : result OpenAI.ChatCompletion :=
  match c with
  | Complete client messages => OpenAI.chat_completions_create client name messages
  | StructuredComplete client messages cls =>
      OpenAI.beta_chat_completions_parse client name messages cls
  | StreamComplete _ _ => Raise (AttributeError "usage")
  end.

(** The message [complete] appends to the log copy of [messages]. *)
Definition response_message (client : OpenAI.Client) (name : string)
    (messages : list value) : result value :=
  response ← OpenAI.chat_completions_create client name messages;
  c ← first_choice response;
  Ok (OpenAI.dict (OpenAI.message c)).

(** A call whose result is dropped. *)
Definition exec (c : call OpenAI.Client) : M unit :=
  match c with
  | Complete client messages => complete client messages;; mret tt
  | StreamComplete client messages => stream_complete client messages;; mret tt
  | StructuredComplete client messages cls =>
      structured_complete client messages cls;; mret tt
  end.

End ModelWrapper.

(** ** classes [OpenAIModelWrapper] and [AzureModelWrapper]

    Both only choose the client and the default model name. *)

Module OpenAIModelWrapper.
Definition init (model_name : option string) (log_file : option string) : wrapper :=
  ModelWrapper.init (default "gpt-4o" model_name) log_file.
End OpenAIModelWrapper.

Module AzureModelWrapper.
Definition init (model_name : option string) (log_file : option string) : wrapper :=
  ModelWrapper.init (default "gpt-4o" model_name) log_file.
End AzureModelWrapper.

(** ** class [OllamaModelWrapper] *)

Module OllamaModelWrapper.

Definition init (model_name : option string) (log_file : option string) : wrapper :=
  ModelWrapper.init (default "minicpm-v" model_name) log_file.

(** [{m['type'] : m[m['type']] for m in ...}], the key before the value.
    [m[k]] succeeds only on a dict [m] and a string [k]. *)
Fixpoint parts_by_type (parts : list value) (msg : list (string * value))
  : result (list (string * value)) :=
  match parts with
  | [] => Ok msg
  | m :: rest =>
      k ← Py.getitem m (VStr "type");
      v ← Py.getitem m k;
      match k with
      | VStr s => parts_by_type rest (Py.dict_set msg s v)
      | _ => Raise TypeError
      end
  end.

(** [msg[key]] on the dict the comprehension built. *)
Definition msg_get (msg : list (string * value)) (key : string) : result value :=
  Py.getitem (VDict msg) (VStr key).

(** The body of the loop [for msg_raw in messages]. *)
Definition reformat_message (msg_raw : value) : result value :=
  content ← Py.getitem msg_raw (VStr "content");
  parts ← Py.iter content;
  msg ← parts_by_type parts [];
  role ← Py.getitem msg_raw (VStr "role");
  text ← msg_get msg "text";
  let o_msg := [("role", role); ("content", text)] in
  if Py.dict_contains msg "image_url" then
    image_url ← msg_get msg "image_url";
    url ← Py.getitem image_url (VStr "url");
    image ← Py.slice_from url 22;
    Ok (VDict (Py.dict_set o_msg "images" (VList [image])))
  else Ok (VDict o_msg).

Fixpoint _ollama_reformat_messages (messages : list value) : result (list value) :=
  match messages with
  | [] => Ok []
  | msg_raw :: rest =>
      o_msg ← reformat_message msg_raw;
      o_messages ← _ollama_reformat_messages rest;
      Ok (o_msg :: o_messages)
  end.

Definition _openai_reformat_messages (ollama_msg : value) : result value :=
  role ← Py.getitem ollama_msg (VStr "role");
  content ← Py.getitem ollama_msg (VStr "content");
  Ok (VDict [("role", role);
             ("content", VDict [("type", VStr "text"); ("text", content)])]).

Definition complete (client : Ollama.Client) (messages : list value) : M value :=
  me ← get_self;
  ollama_messages ← lift (_ollama_reformat_messages messages);
  response ← lift (Ollama.chat client (model_name me) ollama_messages);
  resp_msg ← lift (Py.getitem response (VStr "message"));
  resp_content ← lift (Py.getitem resp_msg (VStr "content"));
  incr_requests;;
  add_input_tokens
    (fun n => d ← Py.getitem response (VStr "eval_count"); Py.int_add n d);;
  add_completion_tokens
    (fun n => d ← Py.getitem response (VStr "eval_count"); Py.int_add n d);;
  me ← get_self;
  match log_file me with
  | Some path =>
      m ← lift (_openai_reformat_messages resp_msg);
      write_log path (messages ++ [m])
  | None => mret tt
  end;;
  mret resp_content.

(** [for chunk in stream: yield chunk['message']['content']] *)
Fixpoint stream_items (chunks : list value) (end_of_stream : option exn)
  : lazy_seq value :=
  match chunks with
  | [] => LazySeq [] end_of_stream
  | chunk :: rest =>
      match (m ← Py.getitem chunk (VStr "message"); Py.getitem m (VStr "content")) with
      | Ok fragment =>
          let tail := stream_items rest end_of_stream in
          LazySeq (fragment :: items tail) (raised tail)
      | Raise e => LazySeq [] (Some e)
      end
  end.

(** A generator function: the call itself runs nothing and cannot raise;
    the body runs while the caller consumes the result. *)
Definition stream_complete (client : Ollama.Client) (messages : list value)
  : M (lazy_seq value) :=
  me ← get_self;
  mret match _ollama_reformat_messages messages with
       | Raise e => LazySeq [] (Some e)
       | Ok ollama_messages =>
           match Ollama.chat_stream client (model_name me) ollama_messages with
           | Raise e => LazySeq [] (Some e)
           | Ok stream => stream_items (items stream) (raised stream)
           end
       end.

(** Inherited from [ModelWrapper]: [self.client.beta] does not exist on
    [ollama.Client]. *)
Definition structured_complete (client : Ollama.Client) (messages : list value)
    (structure_class : string) : M OpenAI.ChatCompletionMessage :=
  raise (AttributeError "beta").

(** The response of the server to a [complete] call. *)
Definition chat_response (client : Ollama.Client) (name : string)
    (messages : list value) : result value :=
  ollama_messages ← _ollama_reformat_messages messages;
  Ollama.chat client name ollama_messages.

(** The message [complete] appends to the log copy of [messages]. *)
Definition response_message (client : Ollama.Client) (name : string)
    (messages : list value) : result value :=
  response ← chat_response client name messages;
  resp_msg ← Py.getitem response (VStr "message");
  _openai_reformat_messages resp_msg.

(** [response['eval_count']] as the integer the counters grow by. *)
Definition eval_count (response : value) : result Z :=
  d ← Py.getitem response (VStr "eval_count");
  Py.int_add 0 d.

(** A call whose result is dropped. *)
Definition exec (c : call Ollama.Client) : M unit :=
  match c with
  | Complete client messages => complete client messages;; mret tt
  | StreamComplete client messages => stream_complete client messages;; mret tt
  | StructuredComplete client messages cls =>
      structured_complete client messages cls;; mret tt
  end.

End OllamaModelWrapper.

(** ** Sequences of calls on one wrapper *)

(** The calls run in order on the same wrapper and files; a call that raises
    leaves the later ones to run (the caller caught the exception). *)
Fixpoint run {C : Type} (exec : C -> M unit) (calls : list C) (w : world)
  : list (result unit) * world :=
  match calls with
  | [] => ([], w)
  | c :: rest =>
      let (r, w1) := exec c w in
      let (rs, w2) := run exec rest w1 in
      (r :: rs, w2)
  end.

Definition completed {A} (r : result A) : bool :=
  match r with Ok _ => true | Raise _ => false end.

Definition fresh (me : wrapper) (fs : gmap string node) : world :=
  {| self := me; files := fs |}.


(** ** Dispatch on the class of the wrapper

    [OpenAIModelWrapper] and [AzureModelWrapper] inherit every method of
    [ModelWrapper]; [OllamaModelWrapper] overrides [complete] and
    [stream_complete]. *)

Inductive class :=
| ClsModelWrapper
| ClsOpenAIModelWrapper
| ClsAzureModelWrapper
| ClsOllamaModelWrapper.

Definition client_of (cls : class) : Type :=
  match cls with
  | ClsOllamaModelWrapper => Ollama.Client
  | _ => OpenAI.Client
  end.

Definition complete_of (cls : class) : client_of cls -> list value -> M value :=
  match cls with
  | ClsOllamaModelWrapper => OllamaModelWrapper.complete
  | _ => ModelWrapper.complete
  end.

Definition stream_complete_of (cls : class)
  : client_of cls -> list value -> M (lazy_seq value) :=
  match cls with
  | ClsOllamaModelWrapper => OllamaModelWrapper.stream_complete
  | _ => ModelWrapper.stream_complete
  end.

Definition exec_of (cls : class) : call (client_of cls) -> M unit :=
  match cls with
  | ClsOllamaModelWrapper => OllamaModelWrapper.exec
  | _ => ModelWrapper.exec
  end.

Definition response_message_of (cls : class)
  : client_of cls -> string -> list value -> result value :=
  match cls with
  | ClsOllamaModelWrapper => OllamaModelWrapper.response_message
  | _ => ModelWrapper.response_message
  end.

(** The token deltas (input, completion) the backend's response to one call
    reports, as the class reads them; nothing for a call with no usable
    response. *)
Definition reported_deltas (cls : class) (name : string)
  : call (client_of cls) -> Z * Z :=
  match cls with
  | ClsOllamaModelWrapper => fun c =>
      match c with
      | Complete client messages =>
          match (r ← OllamaModelWrapper.chat_response client name messages;
                 OllamaModelWrapper.eval_count r) with
          | Ok n => (n, n)
          | Raise _ => (0, 0)
          end
      | _ => (0, 0)
      end
  | _ => fun c =>
      match ModelWrapper.reported_usage name c with
      | Ok r =>
          match OpenAI.usage r with
          | Some u => (OpenAI.prompt_tokens u, OpenAI.completion_tokens u)
          | None => (0, 0)
          end
      | Raise _ => (0, 0)
      end
  end.

Definition zsum (l : list Z) : Z := foldr Z.add 0 l.

(** Every exchange of the trace completed: it returned instead of raising. *)
Definition exchanges_completed {Client} (calls : list (call Client))
    (outcomes : list (result unit)) : bool :=
  forallb (fun co => implb (is_exchange (fst co)) (completed (snd co)))
          (combine calls outcomes).

(** The lines of a text file, each without its newline. *)
Fixpoint lines_from (current : string) (text : string) : list string :=
  match text with
  | EmptyString =>
      match current with
      | EmptyString => []
      | _ => [current]
      end
  | String c rest =>
      if Ascii.eqb c newline then current :: lines_from EmptyString rest
      else lines_from (current +:+ String c EmptyString) rest
  end.

Definition lines (text : string) : list string := lines_from EmptyString text.

(** [f.readlines()] with the newlines stripped; [None] when there is no such
    file. *)
Definition read_lines (w : world) (path : string) : option (list string) :=
  match files w !! path with
  | Some (File text) => Some (lines text)
  | _ => None
  end.

(** The log file is empty, or is yet to be created. *)
Definition empty_log (fs : gmap string node) (path : string) : bool :=
  match fs !! path with
  | None => true
  | Some (File text) => String.eqb text EmptyString
  | Some Dir => false
  end.

(** [local_image_to_data_url]: what [guess_type] finds for the path and the
    base64 text of the file are given; reading the file is left out. *)
Definition local_image_to_data_url (guessed_type : option string)
    (base64_encoded_data : string) : string :=
  let mime_type := default "application/octet-stream" guessed_type in
  "data:" +:+ mime_type +:+ ";base64," +:+ base64_encoded_data.

(** ** Test doubles and sample messages *)

(** A hosted-API backend that answers every request with [response]. *)
Definition stub_client (response : OpenAI.ChatCompletion) : OpenAI.Client :=
  {| OpenAI.chat_completions_create := fun _ _ => Ok response;
     OpenAI.chat_completions_create_stream := fun _ _ => Ok (LazySeq [] None);
     OpenAI.beta_chat_completions_parse := fun _ _ _ => Ok response |}.

(** A response with one choice. *)
Definition stub_response (content message_dict : value) (prompt completion : Z)
  : OpenAI.ChatCompletion :=
  {| OpenAI.choices :=
       [ {| OpenAI.message := {| OpenAI.content := content; OpenAI.dict := message_dict |} |} ];
     OpenAI.usage :=
       Some {| OpenAI.prompt_tokens := prompt; OpenAI.completion_tokens := completion |} |}.

(** A local inference server that answers every request with [response]. *)
Definition stub_ollama (response : value) : Ollama.Client :=
  {| Ollama.chat := fun _ _ => Ok response;
     Ollama.chat_stream := fun _ _ => Ok (LazySeq [] None) |}.

Definition text_part (text : string) : value :=
  VDict [("type", VStr "text"); ("text", VStr text)].

Definition image_part (url : string) : value :=
  VDict [("type", VStr "image_url"); ("image_url", VDict [("url", VStr url)])].

(** A message in the shape the hosted API takes. *)
Definition canonical_message (role : string) (parts : list value) : value :=
  VDict [("role", VStr role); ("content", VList parts)].

(** A message in the shape the local server takes and answers with. *)
Definition local_message (role text : string) : value :=
  VDict [("role", VStr role); ("content", VStr text)].

(** ** Auxiliary definitions of the proofs *)

(** The wrapper after one accounted exchange. *)
Definition bump (me : wrapper) (d_in d_out : Z) : wrapper :=
  {| model_name := model_name me;
     log_file := log_file me;
     stats := {| requests := requests (stats me) + 1;
                 input_tokens := input_tokens (stats me) + d_in;
                 completion_tokens := completion_tokens (stats me) + d_out |} |}.

(** The files after [msg_copy] went to the log, when there is one. *)
Definition logged (fs : gmap string node) (log : option string) (msg_copy : list value)
  : gmap string node :=
  match log with
  | Some path => <[path := File (file_text fs path +:+ log_line msg_copy)]> fs
  | None => fs
  end.

(** The exchanges of a trace, in order. *)
Definition exchanges {Client} (calls : list (call Client)) : list (call Client) :=
  List.filter is_exchange calls.

Fixpoint no_newline (s : string) : bool :=
  match s with
  | EmptyString => true
  | String c rest => negb (Ascii.eqb c newline) && no_newline rest
  end.

Fixpoint value_size (v : value) : nat :=
  match v with
  | VList l => S (list_sum (map value_size l))
  | VDict d => S (list_sum (map (fun kv => value_size (snd kv)) d))
  | _ => 1
  end.

(** A response of the local server: the generated message, the tokens of the
    prompt and the tokens generated. *)
Definition ollama_response (text : string) (prompt_eval_count eval_count : Z) : value :=
  VDict [("message", local_message "assistant" text);
         ("prompt_eval_count", VInt prompt_eval_count);
         ("eval_count", VInt eval_count)].

(** Two completions around a streaming call, on the local wrapper. *)
Definition sample_calls : list (call (client_of ClsOllamaModelWrapper)) :=
  [ Complete (stub_ollama (ollama_response "hello" 7 2))
             [canonical_message "user" [text_part "hi"]];
    StreamComplete (stub_ollama VNone) [];
    Complete (stub_ollama (ollama_response "bye" 4 5))
             [canonical_message "user" [text_part "ho"]] ].

(** Induction on values that reaches inside lists and dicts. *)
Section value_induction.
Variable P : value -> Prop.
Hypothesis HNone : P VNone.
Hypothesis HBool : forall b, P (VBool b).
Hypothesis HInt : forall z, P (VInt z).
Hypothesis HStr : forall s, P (VStr s).
Hypothesis HList : forall l, Forall P l -> P (VList l).
Hypothesis HDict : forall d, Forall (fun kv => P (snd kv)) d -> P (VDict d).

Fixpoint value_ind_nested (v : value) : P v :=
  match v with
  | VNone => HNone
  | VBool b => HBool b
  | VInt z => HInt z
  | VStr s => HStr s
  | VList l =>
      HList l ((fix go (l : list value) : Forall P l :=
                  match l with
                  | [] => @List.Forall_nil _ P
                  | x :: rest => @List.Forall_cons _ P x rest (value_ind_nested x) (go rest)
                  end) l)
  | VDict d =>
      HDict d ((fix go (d : list (string * value)) : Forall (fun kv => P (snd kv)) d :=
                  match d with
                  | [] => @List.Forall_nil _ _
                  | kv :: rest =>
                      @List.Forall_cons _ (fun kv => P (snd kv)) kv rest
                        (value_ind_nested (snd kv)) (go rest)
                  end) d)
  end.
End value_induction.

(** ** Further definitions: outcomes of calls, parts, rendering *)

(** The wrapper after a request was counted and nothing else. *)
Definition counted (me : wrapper) : wrapper :=
  {| model_name := model_name me;
     log_file := log_file me;
     stats := {| requests := requests (stats me) + 1;
                 input_tokens := input_tokens (stats me);
                 completion_tokens := completion_tokens (stats me) |} |}.

(** The backend answered the call: the method holds a response when it
    reaches [self.stats["requests"] += 1]. *)
Definition answered (cls : class) (name : string) : call (client_of cls) -> bool :=
  match cls with
  | ClsOllamaModelWrapper => fun c =>
      match c with
      | Complete client messages =>
          completed (response ← OllamaModelWrapper.chat_response client name messages;
                     resp_msg ← Py.getitem response (VStr "message");
                     Py.getitem resp_msg (VStr "content"))
      | _ => false
      end
  | _ => fun c => completed (ModelWrapper.reported_usage name c)
  end.

(** What the client library hands back for a call, the value dropped. *)
Definition backend_outcome (name : string) (c : call OpenAI.Client) : result unit :=
  match c with
  | Complete client messages =>
      OpenAI.chat_completions_create client name messages;; Ok tt
  | StreamComplete client messages =>
      OpenAI.chat_completions_create_stream client name messages;; Ok tt
  | StructuredComplete client messages sc =>
      OpenAI.beta_chat_completions_parse client name messages sc;; Ok tt
  end.

(** [w'] is a later state of the wrapper and the files of [w]: the same
    model and log file, every other file as it was, a directory still a
    directory, and every text grown at its end only. *)
Definition follows (w w' : world) : Prop :=
  model_name (self w') = model_name (self w)
  /\ log_file (self w') = log_file (self w)
  /\ (forall path, log_file (self w) <> Some path -> files w' !! path = files w !! path)
  /\ (forall path, files w !! path = Some Dir -> files w' !! path = Some Dir)
  /\ (forall path, exists suffix,
        file_text (files w') path = file_text (files w) path +:+ suffix).

(** The list a completed exchange serializes into the log: the input
    messages and the response message; empty where the call produces none. *)
Definition log_record (cls : class) (name : string) : call (client_of cls) -> list value :=
  match cls with
  | ClsOllamaModelWrapper => fun c =>
      match c with
      | Complete client messages =>
          match OllamaModelWrapper.response_message client name messages with
          | Ok m => messages ++ [m]
          | Raise _ => []
          end
      | _ => []
      end
  | _ => fun c =>
      match c with
      | StreamComplete _ _ => []
      | Complete _ messages | StructuredComplete _ messages _ =>
          match (response ← ModelWrapper.reported_usage name c;
                 ch ← ModelWrapper.first_choice response;
                 Ok (OpenAI.dict (OpenAI.message ch))) with
          | Ok m => messages ++ [m]
          | Raise _ => []
          end
      end
  end.

(** The text a sequence of log records makes. *)
Definition log_text (records : list (list value)) : string :=
  foldr (fun r acc => log_line r +:+ acc) EmptyString records.

(** The two kinds of content part [_ollama_reformat_messages] reads. *)
Inductive content_part :=
| Text (text : string)
| ImageRef (url : string).

Definition part_value (p : content_part) : value :=
  match p with
  | Text text => text_part text
  | ImageRef url => image_part url
  end.

Fixpoint last_text (parts : list content_part) : option string :=
  match parts with
  | [] => None
  | p :: rest =>
      match last_text rest, p with
      | Some t, _ => Some t
      | None, Text t => Some t
      | None, ImageRef _ => None
      end
  end.

Fixpoint last_image (parts : list content_part) : option string :=
  match parts with
  | [] => None
  | p :: rest =>
      match last_image rest, p with
      | Some u, _ => Some u
      | None, ImageRef u => Some u
      | None, Text _ => None
      end
  end.

(** [response.choices[0].delta.content], the expression [stream_wrapper]
    yields for one chunk. *)
Definition chunk_fragment (response : OpenAI.ChatCompletionChunk) : result value :=
  c ← Py.seq_index (OpenAI.chunk_choices response) 0;
  Ok (OpenAI.delta_content (OpenAI.delta c)).

(** [chunk['message']['content']], the expression the local
    [stream_complete] yields for one chunk. *)
Definition local_chunk_fragment (chunk : value) : result value :=
  m ← Py.getitem chunk (VStr "message");
  Py.getitem m (VStr "content").

(** [needle] occurs somewhere in [hay]. *)
Definition occurs_in (needle hay : string) : Prop :=
  exists before after, hay = before +:+ needle +:+ after.

(** *** [repr] and [str] on values *)

Module Repr.

Definition squote : ascii := "039"%char.

Definition contains_char (c : ascii) (s : string) : bool :=
  existsb (Ascii.eqb c) (list_ascii_of_string s).

(** Single quotes, unless the string holds one and no double quote. *)
Definition quote_for (s : string) : ascii :=
  if contains_char squote s && negb (contains_char Json.dquote s)
  then Json.dquote else squote.

(** The printable characters below 256: the ASCII ones from the space to the
    tilde, and those from 161 to 255 but the soft hyphen. *)
Definition printable (n : N) : bool :=
  ((32 <=? n)%N && (n <=? 126)%N)
  || ((161 <=? n)%N && (n <=? 255)%N && negb (n =? 173)%N).

Definition repr_char (quote c : ascii) : string :=
  let n := N_of_ascii c in
  if Ascii.eqb c quote || (n =? 92)%N then String Json.backslash (String c EmptyString)
  else if (n =? 9)%N then String Json.backslash "t"
  else if (n =? 10)%N then String Json.backslash "n"
  else if (n =? 13)%N then String Json.backslash "r"
  else if printable n then String c EmptyString
  else String Json.backslash
         ("x" +:+ String (Json.hex_digit (n / 16))
                    (String (Json.hex_digit (n mod 16)) EmptyString)).

Fixpoint repr_chars (quote : ascii) (s : string) : string :=
  match s with
  | EmptyString => EmptyString
  | String c rest => repr_char quote c +:+ repr_chars quote rest
  end.

Definition repr_str (s : string) : string :=
  let quote := quote_for s in
  String quote (repr_chars quote s +:+ String quote EmptyString).

Fixpoint repr (v : value) : string :=
  match v with
  | VNone => "None"
  | VBool true => "True"
  | VBool false => "False"
  | VInt z => Json.encode_int z
  | VStr s => repr_str s
  | VList l => "[" +:+ String.concat ", " (map repr l) +:+ "]"
  | VDict d =>
      "{" +:+ String.concat ", "
                (map (fun kv => repr_str (fst kv) +:+ ": " +:+ repr (snd kv)) d)
          +:+ "}"
  end.

(** [str(v)], which is also how an f-string formats [v]. *)
Definition str (v : value) : string :=
  match v with
  | VStr s => s
  | _ => repr v
  end.

End Repr.

(** *** [human_readable_parse] *)

Definition nl : string := String newline EmptyString.

(** The f-string of the comprehension: the role, a colon, a newline, the
    content. *)
Definition render_message (msg : value) : result string :=
  role ← Py.getitem msg (VStr "role");
  content ← Py.getitem msg (VStr "content");
  Ok (Repr.str role +:+ ":" +:+ nl +:+ Repr.str content).

(** The list comprehension over [messages]. *)
Fixpoint render_messages (messages : list value) : result (list string) :=
  match messages with
  | [] => Ok []
  | msg :: rest =>
      text ← render_message msg;
      texts ← render_messages rest;
      Ok (text :: texts)
  end.

Definition human_readable_parse (messages : list value) : result string :=
  texts ← render_messages messages;
  Ok (String.concat nl texts).

(** *** More test doubles *)

(** A hosted-API backend that is down: every entry point raises [e]. *)
Definition failing_client (e : exn) : OpenAI.Client :=
  {| OpenAI.chat_completions_create := fun _ _ => Raise e;
     OpenAI.chat_completions_create_stream := fun _ _ => Raise e;
     OpenAI.beta_chat_completions_parse := fun _ _ _ => Raise e |}.

(** A local inference server that is down. *)
Definition failing_ollama (e : exn) : Ollama.Client :=
  {| Ollama.chat := fun _ _ => Raise e;
     Ollama.chat_stream := fun _ _ => Raise e |}.

(** A local inference server that streams [chunks]. *)
Definition streaming_ollama (chunks : list value) : Ollama.Client :=
  {| Ollama.chat := fun _ _ => Raise (ClientError "not a streaming request");
     Ollama.chat_stream := fun _ _ => Ok (LazySeq chunks None) |}.

(** A chunk of a hosted-API stream, with the contents of its choices. *)
Definition chunk_with (contents : list value) : OpenAI.ChatCompletionChunk :=
  {| OpenAI.chunk_choices :=
       map (fun content =>
              {| OpenAI.delta := {| OpenAI.delta_content := content |} |})
           contents |}.

(** A chunk of a local stream. *)
Definition local_chunk (text : string) : value :=
  VDict [("message", local_message "assistant" text)].

Definition user_hi : list value := [canonical_message "user" [text_part "hi"]].

(** * Properties *)

(** ** Completed steps of a method body *)

Lemma bind_ok {A B} (m : M A) (k : A -> M B) (w w' : world) (b : B) :
  (m ≫= k) w = (Ok b, w') -> exists a w1, m w = (Ok a, w1) /\ k a w1 = (Ok b, w').
Proof.
  unfold mbind, M_bind. destruct (m w) as [[a|e] w1]; [eauto|discriminate].
Qed.

Lemma result_bind_ok {A B} (r : result A) (k : A -> result B) (b : B) :
  r ≫= k = Ok b -> exists a, r = Ok a /\ k a = Ok b.
Proof. destruct r as [a|e]; simpl; [eauto|discriminate]. Qed.

Lemma lift_ok {A} (r : result A) (w w' : world) (a : A) :
  lift r w = (Ok a, w') -> r = Ok a /\ w' = w.
Proof. unfold lift. intros H. inversion H. auto. Qed.

Lemma get_self_ok (w w' : world) (me : wrapper) :
  get_self w = (Ok me, w') -> me = self w /\ w' = w.
Proof. unfold get_self. intros H. inversion H. auto. Qed.

Lemma mret_ok {A} (a b : A) (w w' : world) :
  (mret a : M A) w = (Ok b, w') -> b = a /\ w' = w.
Proof. unfold mret, M_ret. intros H. inversion H. auto. Qed.

Ltac unfold_m :=
  unfold incr_requests, add_input_tokens, add_completion_tokens in *;
  unfold mbind, M_bind, mret, M_ret, get_self, lift, raise, set_stats in *.

Lemma incr_requests_ok (w w' : world) (r : unit) :
  incr_requests w = (Ok r, w') ->
  w' = {| self := {| model_name := model_name (self w);
                     log_file := log_file (self w);
                     stats := {| requests := requests (stats (self w)) + 1;
                                 input_tokens := input_tokens (stats (self w));
                                 completion_tokens := completion_tokens (stats (self w)) |} |};
          files := files w |}.
Proof. unfold_m. simpl. intros H. inversion H. reflexivity. Qed.

Lemma add_input_tokens_ok (rhs : Z -> result Z) (w w' : world) (r : unit) :
  add_input_tokens rhs w = (Ok r, w') ->
  exists n, rhs (input_tokens (stats (self w))) = Ok n
    /\ w' = {| self := {| model_name := model_name (self w);
                          log_file := log_file (self w);
                          stats := {| requests := requests (stats (self w));
                                      input_tokens := n;
                                      completion_tokens :=
                                        completion_tokens (stats (self w)) |} |};
               files := files w |}.
Proof.
  unfold_m. simpl. destruct (rhs _) as [n|e]; [|discriminate].
  intros H. inversion H. eauto.
Qed.

Lemma add_completion_tokens_ok (rhs : Z -> result Z) (w w' : world) (r : unit) :
  add_completion_tokens rhs w = (Ok r, w') ->
  exists n, rhs (completion_tokens (stats (self w))) = Ok n
    /\ w' = {| self := {| model_name := model_name (self w);
                          log_file := log_file (self w);
                          stats := {| requests := requests (stats (self w));
                                      input_tokens := input_tokens (stats (self w));
                                      completion_tokens := n |} |};
               files := files w |}.
Proof.
  unfold_m. simpl. destruct (rhs _) as [n|e]; [|discriminate].
  intros H. inversion H. eauto.
Qed.

Lemma append_file_ok (path text : string) (w w' : world) (r : unit) :
  append_file path text w = (Ok r, w') ->
  files w !! path <> Some Dir
  /\ w' = {| self := self w;
             files := <[path := File (file_text (files w) path +:+ text)]> (files w) |}.
Proof.
  unfold append_file, file_text.
  destruct (files w !! path) as [[old|]|] eqn:E; intros H; inversion H; subst;
    (split; [congruence | reflexivity]).
Qed.

Lemma account_ok (response : OpenAI.ChatCompletion) (w w' : world) (r : unit) :
  ModelWrapper.account response w = (Ok r, w') ->
  exists u, OpenAI.usage response = Some u
    /\ w' = {| self := bump (self w) (OpenAI.prompt_tokens u) (OpenAI.completion_tokens u);
               files := files w |}.
Proof.
  unfold ModelWrapper.account, OpenAI.usage_field. unfold_m. simpl.
  destruct (OpenAI.usage response) as [u|]; simpl; [|discriminate].
  intros H. inversion H. exists u. split; reflexivity.
Qed.

(** Splits a completed method body into its completed steps. *)
Ltac steps H :=
  repeat match type of H with
  | (_ ≫= _) _ = (Ok _, _) =>
      let H1 := fresh "Hstep" in
      apply bind_ok in H as (? & ? & H1 & H);
      first [ apply get_self_ok in H1 as [-> ->]
            | apply lift_ok in H1 as [H1 ->]
            | apply account_ok in H1 as (? & H1 & ->)
            | idtac ]
  | mret _ _ = (Ok _, _) => apply mret_ok in H as [-> ->]
  end.

Lemma log_exchange_ok (messages : list value) (response : OpenAI.ChatCompletion)
    (w w' : world) (r : unit) :
  ModelWrapper.log_exchange messages response w = (Ok r, w') ->
  match log_file (self w) with
  | Some path =>
      exists c, ModelWrapper.first_choice response = Ok c
        /\ files w !! path <> Some Dir
        /\ w' = {| self := self w;
                   files := logged (files w) (Some path)
                              (messages ++ [OpenAI.dict (OpenAI.message c)]) |}
  | None => w' = w
  end.
Proof.
  unfold ModelWrapper.log_exchange. intros H.
  apply bind_ok in H as (me & w1 & Hme & H). apply get_self_ok in Hme as [-> ->].
  destruct (log_file (self w)) as [path|].
  - steps H. unfold write_log in H. apply append_file_ok in H as [Hd ->]. eauto.
  - apply mret_ok in H as [_ ->]. reflexivity.
Qed.

(** What a completed exchange of [ModelWrapper] leaves behind, after the
    response [response] arrived. *)
Lemma exchange_ok (messages : list value) (response : OpenAI.ChatCompletion)
    (w w1 w' : world) (u : OpenAI.CompletionUsage) (r : unit) (c : OpenAI.Choice) :
  w1 = {| self := bump (self w) (OpenAI.prompt_tokens u) (OpenAI.completion_tokens u);
          files := files w |} ->
  ModelWrapper.log_exchange messages response w1 = (Ok r, w') ->
  ModelWrapper.first_choice response = Ok c ->
  self w' = bump (self w) (OpenAI.prompt_tokens u) (OpenAI.completion_tokens u)
  /\ files w' = logged (files w) (log_file (self w))
                  (messages ++ [OpenAI.dict (OpenAI.message c)])
  /\ forall path, log_file (self w) = Some path -> files w !! path <> Some Dir.
Proof.
  intros -> Hlog Hc. apply log_exchange_ok in Hlog. simpl in Hlog.
  destruct (log_file (self w)) as [path|] eqn:El.
  - destruct Hlog as (c' & Hc' & Hd & ->). simpl.
    rewrite Hc in Hc'. injection Hc' as <-.
    split; [reflexivity|]. split; [reflexivity|]. intros ? [= <-]. assumption.
  - subst. simpl. split; [reflexivity|]. split; [reflexivity|]. intros ? [=].
Qed.

Lemma complete_ok (client : OpenAI.Client) (messages : list value) (w w' : world)
    (out : value) :
  ModelWrapper.complete client messages w = (Ok out, w') ->
  exists response c u,
    OpenAI.chat_completions_create client (model_name (self w)) messages = Ok response
    /\ ModelWrapper.first_choice response = Ok c
    /\ OpenAI.usage response = Some u
    /\ out = OpenAI.content (OpenAI.message c)
    /\ self w' = bump (self w) (OpenAI.prompt_tokens u) (OpenAI.completion_tokens u)
    /\ files w' = logged (files w) (log_file (self w))
                    (messages ++ [OpenAI.dict (OpenAI.message c)])
    /\ forall path, log_file (self w) = Some path -> files w !! path <> Some Dir.
Proof.
  unfold ModelWrapper.complete. intros H. steps H.
  eexists _, _, _. repeat (split; [eassumption || reflexivity|]).
  eapply exchange_ok; eauto.
Qed.

Lemma structured_complete_ok (client : OpenAI.Client) (messages : list value)
    (cls : string) (w w' : world) (out : OpenAI.ChatCompletionMessage) :
  ModelWrapper.structured_complete client messages cls w = (Ok out, w') ->
  exists response c u,
    OpenAI.beta_chat_completions_parse client (model_name (self w)) messages cls
      = Ok response
    /\ ModelWrapper.first_choice response = Ok c
    /\ OpenAI.usage response = Some u
    /\ out = OpenAI.message c
    /\ self w' = bump (self w) (OpenAI.prompt_tokens u) (OpenAI.completion_tokens u)
    /\ files w' = logged (files w) (log_file (self w))
                    (messages ++ [OpenAI.dict (OpenAI.message c)])
    /\ forall path, log_file (self w) = Some path -> files w !! path <> Some Dir.
Proof.
  unfold ModelWrapper.structured_complete. intros H. steps H.
  eexists _, _, _. repeat (split; [eassumption || reflexivity|]).
  eapply exchange_ok; eauto.
Qed.

Lemma int_add_ok (n k : Z) (d : value) :
  Py.int_add n d = Ok k -> exists z, Py.int_add 0 d = Ok z /\ k = n + z.
Proof. destruct d; simpl; intros H; inversion H; eauto. Qed.

Lemma ollama_complete_ok (client : Ollama.Client) (messages : list value)
    (w w' : world) (out : value) :
  OllamaModelWrapper.complete client messages w = (Ok out, w') ->
  exists response resp_msg n,
    OllamaModelWrapper.chat_response client (model_name (self w)) messages = Ok response
    /\ Py.getitem response (VStr "message") = Ok resp_msg
    /\ Py.getitem resp_msg (VStr "content") = Ok out
    /\ OllamaModelWrapper.eval_count response = Ok n
    /\ self w' = bump (self w) n n
    /\ match log_file (self w) with
       | Some path =>
           exists m, OllamaModelWrapper._openai_reformat_messages resp_msg = Ok m
             /\ files w !! path <> Some Dir
             /\ files w' = logged (files w) (Some path) (messages ++ [m])
       | None => files w' = files w
       end.
Proof.
  unfold OllamaModelWrapper.complete. intros H. steps H.
  apply incr_requests_ok in Hstep3 as ->.
  apply add_input_tokens_ok in Hstep4 as (n1 & Hn1 & ->).
  apply add_completion_tokens_ok in Hstep5 as (n2 & Hn2 & ->).
  simpl in *.
  apply result_bind_ok in Hn1 as (d1 & Hd1 & Hn1).
  apply result_bind_ok in Hn2 as (d2 & Hd2 & Hn2).
  rewrite Hd1 in Hd2. injection Hd2 as <-.
  apply int_add_ok in Hn1 as (z & Hz & ->).
  apply int_add_ok in Hn2 as (z' & Hz' & ->).
  rewrite Hz in Hz'. injection Hz' as <-.
  exists x0, x1, z.
  unfold OllamaModelWrapper.chat_response, OllamaModelWrapper.eval_count.
  rewrite Hstep, Hd1. simpl.
  repeat (split; [assumption|]).
  destruct (log_file (self w)) as [path|] eqn:El.
  - steps Hstep6. unfold write_log in Hstep6.
    apply append_file_ok in Hstep6 as [Hd ->]. simpl in *.
    unfold bump. rewrite El. eauto.
  - apply mret_ok in Hstep6 as [_ ->]. simpl. unfold bump. rewrite El. auto.
Qed.

(** ** Cost computation *)

Lemma int_to_float_raises (n : Z) (e : exn) :
  Py.int_to_float n = Raise e -> e = OverflowError.
Proof. unfold Py.int_to_float. destruct (is_infinity _); congruence. Qed.

(** C2: with both prices supplied, [compute_cost] returns
    [stats.input_tokens * p_in + stats.completion_tokens * p_out], the
    products and the sum being Python's on an [int] and a [float]: the
    counters are converted to [float], and the call raises only when a
    counter is beyond the range of [float]. The model name has no part in
    the result. *)
Theorem compute_cost_explicit_prices (name : string) (log : option string) (st : Stats)
    (p_in p_out : float) :
  let cost :=
    ModelWrapper.compute_cost {| model_name := name; log_file := log; stats := st |}
      (Some p_in) (Some p_out) in
  cost = (a ← Py.int_mul (input_tokens st) (Some p_in);
          b ← Py.int_mul (completion_tokens st) (Some p_out);
          Ok (a + b)%float)
  /\ (cost = Raise OverflowError
      \/ exists f_in f_out,
           Py.int_to_float (input_tokens st) = Ok f_in
           /\ Py.int_to_float (completion_tokens st) = Ok f_out
           /\ cost = Ok (f_in * p_in + f_out * p_out)%float).
Proof.
  intros cost. split; [reflexivity|].
  subst cost. unfold ModelWrapper.compute_cost, Py.int_mul. simpl.
  destruct (Py.int_to_float (input_tokens st)) as [f_in|e] eqn:Ei; simpl.
  - destruct (Py.int_to_float (completion_tokens st)) as [f_out|e] eqn:Eo; simpl.
    + right. eauto.
    + left. now rewrite (int_to_float_raises _ _ Eo).
  - left. now rewrite (int_to_float_raises _ _ Ei).
Qed.

(** The formula on the counters of the scenario of the specification. *)
Example compute_cost_3_1 :
  ModelWrapper.compute_cost
    {| model_name := "gpt-4o"; log_file := None;
       stats := {| requests := 1; input_tokens := 3; completion_tokens := 1 |} |}
    (Some 0.5%float) (Some 2%float)
  = Ok 3.5%float.
Proof. reflexivity. Qed.

(** C3: with no price supplied, the model name "gpt-4o-mini" selects the
    pair (0.000165/1000, 0.00066/1000), "gpt-35-turbo" selects
    (0.0005/1000, 0.0015/1000), and "foo-bar" makes the call raise the
    [ValueError] for an unknown model. *)
Theorem compute_cost_table (log : option string) (st : Stats) :
  let me name := {| model_name := name; log_file := log; stats := st |} in
  ModelWrapper.lookup_prices "gpt-4o-mini"
  = Ok (Some (0.000165 / 1000)%float, Some (0.00066 / 1000)%float)
  /\ ModelWrapper.compute_cost (me "gpt-4o-mini") None None
     = ModelWrapper.compute_cost (me "gpt-4o-mini")
         (Some (0.000165 / 1000)%float) (Some (0.00066 / 1000)%float)
  /\ ModelWrapper.lookup_prices "gpt-35-turbo"
     = Ok (Some (0.0005 / 1000)%float, Some (0.0015 / 1000)%float)
  /\ ModelWrapper.compute_cost (me "gpt-35-turbo") None None
     = ModelWrapper.compute_cost (me "gpt-35-turbo")
         (Some (0.0005 / 1000)%float) (Some (0.0015 / 1000)%float)
  /\ ModelWrapper.compute_cost (me "foo-bar") None None
     = Raise (ValueError
                "Unknown model name: foo-bar. Please provide input_token_cost and output_token_cost.").
Proof. intros me. repeat split. Qed.

(** C4: [compute_cost] with exactly one price raises. With the output price
    alone the [assert] fails; with the input price alone the product of the
    completion counter and [None] is a [TypeError], unless the input counter
    is already too large for a [float]. *)
Theorem compute_cost_one_price (me : wrapper) (p : float) :
  ModelWrapper.compute_cost me None (Some p) = Raise AssertionError
  /\ (ModelWrapper.compute_cost me (Some p) None = Raise TypeError
      \/ ModelWrapper.compute_cost me (Some p) None = Raise OverflowError).
Proof.
  split; [reflexivity|].
  unfold ModelWrapper.compute_cost. simpl.
  destruct (Py.int_to_float (input_tokens (stats me))) as [f|e] eqn:E; simpl.
  - now left.
  - right. now rewrite (int_to_float_raises _ _ E).
Qed.

(** ** A completion against a test double *)

(** C7: on the hosted-API wrapper, [complete] of the single user message
    "hi" against a backend answering "hello" with usage (3, 1) returns
    "hello" and leaves the counters at one request, 3 input tokens and 1
    completion token. *)
Theorem scenario_hosted_complete (model_name : option string) (fs : gmap string node)
    (message_dict : value) :
  ModelWrapper.complete
    (stub_client (stub_response (VStr "hello") message_dict 3 1))
    [canonical_message "user" [text_part "hi"]]
    (fresh (OpenAIModelWrapper.init model_name None) fs)
  = (Ok (VStr "hello"),
     fresh {| model_name := default "gpt-4o" model_name;
              log_file := None;
              stats := {| requests := 1; input_tokens := 3; completion_tokens := 1 |} |}
           fs).
Proof. reflexivity. Qed.

(** ** Streaming *)

Lemma stream_complete_same (cls : class) (client : client_of cls)
    (messages : list value) (w : world) :
  snd (stream_complete_of cls client messages w) = w.
Proof.
  destruct cls; simpl in *;
    unfold ModelWrapper.stream_complete, OllamaModelWrapper.stream_complete;
    unfold_m; simpl; try reflexivity;
    destruct (OpenAI.chat_completions_create_stream _ _ _); reflexivity.
Qed.

(** C5: for every class of wrapper, [stream_complete] leaves the counters
    and every file as they were, whatever the backend does and whether or
    not a log file is configured. *)
Theorem stream_complete_frame (cls : class) (client : client_of cls)
    (messages : list value) (w : world) :
  let w' := snd (stream_complete_of cls client messages w) in
  stats (self w') = stats (self w) /\ files w' = files w.
Proof.
  intros w'. subst w'. rewrite stream_complete_same. split; reflexivity.
Qed.

(** ** Usage accounting over a trace *)

Lemma discard_snd {A} (m : M A) (w : world) :
  snd ((m;; mret ()) w) = snd (m w).
Proof. unfold_m. destruct (m w) as [[a|e] w1]; reflexivity. Qed.

Lemma discard_ok {A} (m : M A) (w w' : world) (r : unit) :
  (m;; mret ()) w = (Ok r, w') -> exists a, m w = (Ok a, w').
Proof. intros H. steps H. eauto. Qed.

(** One step of a trace: a streaming call changes nothing; a completed
    exchange adds one request and the reported deltas. *)
Lemma exec_step (cls : class) (c : call (client_of cls)) (w w' : world) (r : result unit) :
  exec_of cls c w = (r, w') ->
  implb (is_exchange c) (completed r) = true ->
  model_name (self w') = model_name (self w)
  /\ requests (stats (self w'))
     = requests (stats (self w)) + Z.b2z (is_exchange c)
  /\ input_tokens (stats (self w'))
     = input_tokens (stats (self w)) + fst (reported_deltas cls (model_name (self w)) c)
  /\ completion_tokens (stats (self w'))
     = completion_tokens (stats (self w)) + snd (reported_deltas cls (model_name (self w)) c).
Proof.
  intros Hex Hdone.
  assert (Hstream : forall client messages,
             c = StreamComplete client messages -> w' = w).
  { intros client messages ->.
    pose proof (stream_complete_same cls client messages w) as Hs.
    destruct cls; simpl in Hex, Hs;
      unfold ModelWrapper.exec, OllamaModelWrapper.exec in Hex;
      match type of Hex with
      | ?l = _ => assert (Hd : snd l = w) by (rewrite discard_snd; exact Hs)
      end;
      rewrite Hex in Hd; simpl in Hd; congruence. }
  destruct c as [client messages | client messages | client messages sc]; simpl in *.
  - destruct r as [[]|e]; [|discriminate].
    destruct cls; simpl in *;
      unfold ModelWrapper.exec, OllamaModelWrapper.exec in Hex;
      apply discard_ok in Hex as [out Hex].
    1-3: apply complete_ok in Hex as (resp & ch & u & Hr & _ & Hu & _ & Hs & _);
         rewrite Hs, Hr, Hu; simpl; repeat split; lia.
    apply ollama_complete_ok in Hex as (resp & m & n & Hr & _ & _ & Hn & Hs & _).
    rewrite Hs, Hr. simpl. rewrite Hn. simpl. repeat split; lia.
  - rewrite (Hstream client messages eq_refl).
    destruct cls; simpl; repeat split; lia.
  - destruct r as [[]|e]; [|discriminate].
    destruct cls; simpl in *;
      unfold ModelWrapper.exec, OllamaModelWrapper.exec in Hex;
      apply discard_ok in Hex as [out Hex].
    1-3: apply structured_complete_ok in Hex
           as (resp & ch & u & Hr & _ & Hu & _ & Hs & _);
         rewrite Hs, Hr, Hu; simpl; repeat split; lia.
    discriminate Hex.
Qed.

Lemma stream_reports_nothing (cls : class) (name : string) (c : call (client_of cls)) :
  is_exchange c = false -> reported_deltas cls name c = (0, 0).
Proof. destruct cls, c; simpl; congruence. Qed.

Lemma run_accounting (cls : class) (calls : list (call (client_of cls))) :
  forall (w w' : world) (outcomes : list (result unit)),
    run (exec_of cls) calls w = (outcomes, w') ->
    exchanges_completed calls outcomes = true ->
    model_name (self w') = model_name (self w)
    /\ requests (stats (self w'))
       = requests (stats (self w)) + Z.of_nat (length (exchanges calls))
    /\ input_tokens (stats (self w'))
       = input_tokens (stats (self w))
         + zsum (map (fun c => fst (reported_deltas cls (model_name (self w)) c))
                     (exchanges calls))
    /\ completion_tokens (stats (self w'))
       = completion_tokens (stats (self w))
         + zsum (map (fun c => snd (reported_deltas cls (model_name (self w)) c))
                     (exchanges calls)).
Proof.
  induction calls as [|c calls IH]; intros w w' outcomes Hrun Hdone; simpl in Hrun.
  - injection Hrun as <- <-. simpl. repeat split; lia.
  - destruct (exec_of cls c w) as [r w1] eqn:Hc.
    destruct (run (exec_of cls) calls w1) as [rs w2] eqn:Hrest.
    injection Hrun as <- <-. simpl in Hdone.
    apply andb_true_iff in Hdone as [Hr Hrs].
    destruct (exec_step cls c w w1 r Hc Hr) as (Hn & Hq & Hi & Ho).
    destruct (IH w1 w2 rs Hrest Hrs) as (Hn' & Hq' & Hi' & Ho').
    rewrite Hn in Hi', Ho'. unfold exchanges in *. cbn [List.filter].
    destruct (is_exchange c) eqn:Hx; cbn [Z.b2z] in Hq.
    + cbn [length map]. unfold zsum in *. cbn [foldr]. rewrite Nat2Z.inj_succ.
      repeat split; [congruence | lia ..].
    + rewrite (stream_reports_nothing cls _ c Hx) in Hi, Ho. cbn [fst snd] in Hi, Ho.
      repeat split; [congruence | lia ..].
Qed.

(** C1: on a new wrapper of any class, after a trace in which every
    [complete] and [structured_complete] call completed, with any streaming
    calls in between, [requests] is the number of those exchanges and each
    token counter is the sum of the deltas their responses reported. *)
Theorem usage_accounting (cls : class) (name : string) (log : option string)
    (fs : gmap string node) (calls : list (call (client_of cls)))
    (outcomes : list (result unit)) (w' : world) :
  run (exec_of cls) calls (fresh (ModelWrapper.init name log) fs) = (outcomes, w') ->
  exchanges_completed calls outcomes = true ->
  requests (stats (self w')) = Z.of_nat (length (exchanges calls))
  /\ input_tokens (stats (self w'))
     = zsum (map (fun c => fst (reported_deltas cls name c)) (exchanges calls))
  /\ completion_tokens (stats (self w'))
     = zsum (map (fun c => snd (reported_deltas cls name c)) (exchanges calls)).
Proof.
  intros Hrun Hdone.
  destruct (run_accounting cls calls _ _ _ Hrun Hdone) as (_ & Hq & Hi & Ho).
  simpl in *. auto.
Qed.

Lemma usage_accounting_witness :
  let w' := snd (run (exec_of ClsOllamaModelWrapper) sample_calls
                   (fresh (ModelWrapper.init "minicpm-v" (Some "log")) ∅)) in
  requests (stats (self w')) = 2
  /\ input_tokens (stats (self w')) = 7
  /\ completion_tokens (stats (self w')) = 7.
Proof.
  intros w'.
  exact (usage_accounting ClsOllamaModelWrapper "minicpm-v" (Some "log") ∅ sample_calls
           (fst (run (exec_of ClsOllamaModelWrapper) sample_calls
                   (fresh (ModelWrapper.init "minicpm-v" (Some "log")) ∅)))
           w' (surjective_pairing _) eq_refl).
Defined.

(** C10: a completed [complete] of the local wrapper adds the same number to
    [input_tokens] and to [completion_tokens], the [eval_count] of the
    response; nothing else of the response reaches the counters. *)
Theorem local_complete_counts_eval_twice (client : Ollama.Client)
    (messages : list value) (w w' : world) (out : value) :
  OllamaModelWrapper.complete client messages w = (Ok out, w') ->
  exists response n,
    OllamaModelWrapper.chat_response client (model_name (self w)) messages = Ok response
    /\ OllamaModelWrapper.eval_count response = Ok n
    /\ input_tokens (stats (self w')) = input_tokens (stats (self w)) + n
    /\ completion_tokens (stats (self w')) = completion_tokens (stats (self w)) + n.
Proof.
  intros H.
  apply ollama_complete_ok in H as (response & m & n & Hr & _ & _ & Hn & Hs & _).
  exists response, n. rewrite Hs. simpl. auto.
Qed.

Lemma local_complete_counts_eval_twice_witness :
  let w := fresh (OllamaModelWrapper.init None None) ∅ in
  let messages := [canonical_message "user" [text_part "hi"]] in
  let client := stub_ollama (ollama_response "hello" 7 2) in
  let w' := snd (OllamaModelWrapper.complete client messages w) in
  input_tokens (stats (self w')) = 2 /\ completion_tokens (stats (self w')) = 2.
Proof.
  intros w messages client w'.
  destruct (local_complete_counts_eval_twice client messages w w' (VStr "hello") eq_refl)
    as (response & n & Hr & Hn & Hi & Ho).
  injection Hr as <-. injection Hn as <-. split; assumption.
Defined.

(** ** The completion log *)

Lemma str_app_cons (c : ascii) (a b : string) : String c a +:+ b = String c (a +:+ b).
Proof. reflexivity. Qed.

Lemma str_app_nil (s : string) : s +:+ EmptyString = s.
Proof.
  induction s as [|c s IH]; [reflexivity|]. now rewrite str_app_cons, IH.
Qed.

Lemma str_app_assoc (a b c : string) : a +:+ (b +:+ c) = (a +:+ b) +:+ c.
Proof.
  induction a as [|x a IH]; [reflexivity|]. now rewrite !str_app_cons, IH.
Qed.

Lemma no_newline_app (a b : string) :
  no_newline (a +:+ b) = no_newline a && no_newline b.
Proof.
  induction a as [|c a IH]; [reflexivity|].
  rewrite str_app_cons. cbn [no_newline]. rewrite IH. apply andb_assoc.
Qed.

Lemma no_newline_concat (sep : string) (l : list string) :
  no_newline sep = true ->
  Forall (fun s => no_newline s = true) l ->
  no_newline (String.concat sep l) = true.
Proof.
  intros Hsep Hl. induction Hl as [|s l Hs Hl IH]; [reflexivity|].
  cbn [String.concat]. destruct l as [|s' l']; [assumption|].
  rewrite !no_newline_app, Hs, Hsep, IH. reflexivity.
Qed.

(** No escape sequence holds a newline: the newline itself becomes a
    backslash and the letter n. *)
Lemma no_newline_escape_char (c : ascii) : no_newline (Json.escape_char c) = true.
Proof. destruct c as [[] [] [] [] [] [] [] []]; reflexivity. Qed.

Lemma no_newline_escape (s : string) : no_newline (Json.escape s) = true.
Proof.
  induction s as [|c s IH]; [reflexivity|].
  cbn [Json.escape]. now rewrite no_newline_app, no_newline_escape_char, IH.
Qed.

Lemma no_newline_encode_str (s : string) : no_newline (Json.encode_str s) = true.
Proof.
  unfold Json.encode_str. cbn [no_newline].
  now rewrite no_newline_app, no_newline_escape.
Qed.

Lemma no_newline_uint (u : Decimal.uint) : no_newline (NilEmpty.string_of_uint u) = true.
Proof. induction u; simpl; auto. Qed.

Lemma no_newline_encode_int (z : Z) : no_newline (Json.encode_int z) = true.
Proof.
  unfold Json.encode_int. destruct (Z.to_int z); simpl; apply no_newline_uint.
Qed.

(** [json.dumps] never breaks the line. *)
Lemma no_newline_dumps (v : value) : no_newline (Json.dumps v) = true.
Proof.
  induction v as [| [] | z | s | l IH | d IH] using value_ind_nested;
    try reflexivity.
  - apply no_newline_encode_int.
  - apply no_newline_encode_str.
  - cbn [Json.dumps]. rewrite !no_newline_app.
    rewrite no_newline_concat; [reflexivity | reflexivity |].
    apply Forall_map. exact IH.
  - cbn [Json.dumps]. rewrite !no_newline_app.
    rewrite no_newline_concat; [reflexivity | reflexivity |].
    apply Forall_map. eapply Forall_impl; [exact IH|].
    intros [k x] Hx. cbn [fst snd] in *.
    now rewrite !no_newline_app, no_newline_encode_str, Hx.
Qed.

Lemma lines_from_one (s current : string) :
  no_newline s = true ->
  lines_from current (s +:+ String newline EmptyString) = [current +:+ s].
Proof.
  revert current. induction s as [|c s IH]; intros current Hs.
  - rewrite str_app_nil. reflexivity.
  - cbn [no_newline] in Hs. apply andb_true_iff in Hs as [Hc Hs].
    apply negb_true_iff in Hc. rewrite str_app_cons. cbn [lines_from].
    rewrite Hc, IH by assumption.
    rewrite <- str_app_assoc. reflexivity.
Qed.

(** What one call writes is one line. *)
Lemma lines_log_line (msg_copy : list value) :
  lines (log_line msg_copy) = [Json.dumps (VList msg_copy) +:+ ","].
Proof.
  unfold lines, log_line.
  change (String "," (String newline EmptyString))
    with ("," +:+ String newline EmptyString).
  rewrite str_app_assoc, lines_from_one.
  - reflexivity.
  - now rewrite no_newline_app, no_newline_dumps.
Qed.

Lemma empty_log_text (fs : gmap string node) (path : string) :
  empty_log fs path = true -> file_text fs path = EmptyString.
Proof.
  unfold empty_log, file_text. destruct (fs !! path) as [[text|]|]; try congruence.
  intros H. now apply String.eqb_eq in H.
Qed.

(** C6: after one completed [complete] on a wrapper whose log file is empty,
    the log file holds exactly one line, the JSON text of the input
    messages followed by the response message, then a comma; on a wrapper
    with no log file, [complete] leaves every file as it was. *)
Theorem log_contract (cls : class) (client : client_of cls) (messages : list value)
    (w w' : world) (out : value) :
  complete_of cls client messages w = (Ok out, w') ->
  (forall path,
      log_file (self w) = Some path ->
      empty_log (files w) path = true ->
      exists m,
        response_message_of cls client (model_name (self w)) messages = Ok m
        /\ files w' !! path = Some (File (log_line (messages ++ [m])))
        /\ read_lines w' path = Some [Json.dumps (VList (messages ++ [m])) +:+ ","])
  /\ (log_file (self w) = None -> files w' = files w).
Proof.
  intros Hc.
  assert (H : exists m,
             (forall path, log_file (self w) = Some path ->
                response_message_of cls client (model_name (self w)) messages = Ok m)
             /\ files w' = logged (files w) (log_file (self w)) (messages ++ [m])).
  { destruct cls; simpl in *.
    1-3: apply complete_ok in Hc as (resp & c & u & Hr & Hch & _ & _ & _ & Hf & _);
         exists (OpenAI.dict (OpenAI.message c)); split; [|exact Hf];
         intros _ _; unfold ModelWrapper.response_message; rewrite Hr; simpl;
         rewrite Hch; reflexivity.
    apply ollama_complete_ok in Hc as (resp & rm & n & Hr & Hm & _ & _ & _ & Hl).
    destruct (log_file (self w)) as [path|].
    - destruct Hl as (m & Hm' & _ & Hf). exists m. split; [|exact Hf].
      intros _ _. unfold OllamaModelWrapper.response_message.
      rewrite Hr. simpl. rewrite Hm. simpl. exact Hm'.
    - exists VNone. split; [intros ? [=] | exact Hl]. }
  destruct H as (m & Hm & Hf). split.
  - intros path Hp He. exists m. split; [eauto|].
    unfold read_lines. rewrite Hf, Hp. unfold logged.
    rewrite lookup_insert_eq, (empty_log_text _ _ He).
    change (EmptyString +:+ log_line (messages ++ [m])) with (log_line (messages ++ [m])).
    split; [reflexivity|]. now rewrite lines_log_line.
  - intros Hn. rewrite Hf, Hn. reflexivity.
Qed.

Lemma log_contract_witness :
  let messages := [canonical_message "user" [text_part "hi"]] in
  let reply := local_message "assistant" "hello" in
  let client := stub_client (stub_response (VStr "hello") reply 3 1) in
  let w := fresh (OpenAIModelWrapper.init None (Some "log.json")) ∅ in
  read_lines (snd (ModelWrapper.complete client messages w)) "log.json"
  = Some [Json.dumps (VList (messages ++ [reply])) +:+ ","].
Proof.
  intros messages reply client w.
  destruct (log_contract ClsOpenAIModelWrapper client messages w
              (snd (ModelWrapper.complete client messages w)) (VStr "hello") eq_refl)
    as [Hlog _].
  destruct (Hlog "log.json" eq_refl eq_refl) as (m & Hm & _ & Hl).
  injection Hm as <-. exact Hl.
Defined.

(** ** The message adapters *)

(** C8, as the specification states it, fails: a message in canonical shape
    does not come back unchanged. *)
Lemma canonical_message_not_kept :
  OllamaModelWrapper._openai_reformat_messages
    (canonical_message "assistant" [text_part "hello"])
  <> Ok (canonical_message "assistant" [text_part "hello"]).
Proof. intros H. discriminate H. Qed.

(** C8, amended: on a message with a role and a content,
    [_openai_reformat_messages] returns the role with the content wrapped in
    one text part, and the result is never the message it was given. *)
Theorem openai_reformat_wraps (m role content : value) :
  Py.getitem m (VStr "role") = Ok role ->
  Py.getitem m (VStr "content") = Ok content ->
  OllamaModelWrapper._openai_reformat_messages m
  = Ok (VDict [("role", role);
               ("content", VDict [("type", VStr "text"); ("text", content)])])
  /\ OllamaModelWrapper._openai_reformat_messages m <> Ok m.
Proof.
  intros Hr Hc. unfold OllamaModelWrapper._openai_reformat_messages.
  rewrite Hr, Hc. simpl. split; [reflexivity|].
  intros [= Hm]. rewrite <- Hm in Hc. simpl in Hc. injection Hc as Hc.
  apply (f_equal value_size) in Hc. simpl in Hc. lia.
Qed.

Lemma openai_reformat_wraps_witness :
  OllamaModelWrapper._openai_reformat_messages (local_message "assistant" "hello")
  = Ok (VDict [("role", VStr "assistant"); ("content", text_part "hello")])
  /\ OllamaModelWrapper._openai_reformat_messages (local_message "assistant" "hello")
     <> Ok (local_message "assistant" "hello").
Proof.
  exact (openai_reformat_wraps (local_message "assistant" "hello")
           (VStr "assistant") (VStr "hello") eq_refl eq_refl).
Defined.

(** The image of a message with one text part and one image part is its url
    without the first 22 characters. *)
Lemma reformat_message_image (role text url : string) :
  OllamaModelWrapper.reformat_message
    (canonical_message role [text_part text; image_part url])
  = Ok (VDict [("role", VStr role); ("content", VStr text);
               ("images", VList [VStr (Py.str_drop 22 url)])]).
Proof. reflexivity. Qed.

(** 22 characters are the whole header when the MIME type has 9 characters,
    as "image/png" has. *)
Lemma header_stripped (mime_type payload : string) :
  String.length mime_type = 9%nat ->
  Py.str_drop 22 (local_image_to_data_url (Some mime_type) payload) = payload.
Proof.
  intros Hlen. unfold local_image_to_data_url. cbn [default].
  change (Py.str_drop 22 ("data:" +:+ mime_type +:+ ";base64," +:+ payload))
    with (Py.str_drop 17 (mime_type +:+ ";base64," +:+ payload)).
  do 10 (destruct mime_type as [|? mime_type]; try discriminate Hlen).
  reflexivity.
Qed.

(** With the default MIME type the tail of the header stays as well. *)
Example octet_stream_image (payload : string) :
  Py.str_drop 22 (local_image_to_data_url None payload)
  = "-stream;base64," +:+ payload.
Proof. reflexivity. Qed.

(** C9 at the MIME type "image/jpeg": the image handed to the local server
    is the payload with the comma of the header still in front. *)
Theorem jpeg_data_url_keeps_comma (role text payload : string) :
  OllamaModelWrapper._ollama_reformat_messages
    [canonical_message role
       [text_part text;
        image_part (local_image_to_data_url (Some "image/jpeg") payload)]]
  = Ok [VDict [("role", VStr role); ("content", VStr text);
               ("images", VList [VStr ("," +:+ payload)])]].
Proof. reflexivity. Qed.

(** * Further properties *)

(** ** What each method does on every path *)

Lemma complete_table (client : OpenAI.Client) (messages : list value) (w : world) :
  ModelWrapper.complete client messages w =
  match OpenAI.chat_completions_create client (model_name (self w)) messages with
  | Raise e => (Raise e, w)
  | Ok response =>
      match OpenAI.usage response with
      | None =>
          (Raise (AttributeError "usage"), {| self := counted (self w); files := files w |})
      | Some u =>
          let me := bump (self w) (OpenAI.prompt_tokens u) (OpenAI.completion_tokens u) in
          match ModelWrapper.first_choice response with
          | Raise e => (Raise e, {| self := me; files := files w |})
          | Ok c =>
              match log_file (self w) with
              | None => (Ok (OpenAI.content (OpenAI.message c)),
                         {| self := me; files := files w |})
              | Some path =>
                  match files w !! path with
                  | Some Dir => (Raise (IsADirectoryError path),
                                 {| self := me; files := files w |})
                  | _ => (Ok (OpenAI.content (OpenAI.message c)),
                          {| self := me;
                             files := logged (files w) (Some path)
                                        (messages ++ [OpenAI.dict (OpenAI.message c)]) |})
                  end
              end
          end
      end
  end.
Proof.
  unfold ModelWrapper.complete, ModelWrapper.account, ModelWrapper.log_exchange,
    OpenAI.usage_field, write_log, append_file, logged, file_text, bump, counted.
  unfold_m. cbn.
  destruct (OpenAI.chat_completions_create client _ messages) as [response|e]; cbn;
    [|reflexivity].
  destruct (OpenAI.usage response) as [u|]; cbn; [|reflexivity].
  destruct (log_file (self w)) as [path|]; cbn.
  - destruct (ModelWrapper.first_choice response) as [c|e]; cbn; [|reflexivity].
    destruct (files w !! path) as [[old|]|]; reflexivity.
  - destruct (ModelWrapper.first_choice response) as [c|e]; reflexivity.
Qed.

Lemma structured_complete_table (client : OpenAI.Client) (messages : list value)
    (sc : string) (w : world) :
  ModelWrapper.structured_complete client messages sc w =
  match OpenAI.beta_chat_completions_parse client (model_name (self w)) messages sc with
  | Raise e => (Raise e, w)
  | Ok response =>
      match OpenAI.usage response with
      | None =>
          (Raise (AttributeError "usage"), {| self := counted (self w); files := files w |})
      | Some u =>
          let me := bump (self w) (OpenAI.prompt_tokens u) (OpenAI.completion_tokens u) in
          match ModelWrapper.first_choice response with
          | Raise e => (Raise e, {| self := me; files := files w |})
          | Ok c =>
              match log_file (self w) with
              | None => (Ok (OpenAI.message c), {| self := me; files := files w |})
              | Some path =>
                  match files w !! path with
                  | Some Dir => (Raise (IsADirectoryError path),
                                 {| self := me; files := files w |})
                  | _ => (Ok (OpenAI.message c),
                          {| self := me;
                             files := logged (files w) (Some path)
                                        (messages ++ [OpenAI.dict (OpenAI.message c)]) |})
                  end
              end
          end
      end
  end.
Proof.
  unfold ModelWrapper.structured_complete, ModelWrapper.account, ModelWrapper.log_exchange,
    OpenAI.usage_field, write_log, append_file, logged, file_text, bump, counted.
  unfold_m. cbn.
  destruct (OpenAI.beta_chat_completions_parse client _ messages sc) as [response|e]; cbn;
    [|reflexivity].
  destruct (OpenAI.usage response) as [u|]; cbn; [|reflexivity].
  destruct (log_file (self w)) as [path|]; cbn.
  - destruct (ModelWrapper.first_choice response) as [c|e]; cbn; [|reflexivity].
    destruct (files w !! path) as [[old|]|]; reflexivity.
  - destruct (ModelWrapper.first_choice response) as [c|e]; reflexivity.
Qed.

Lemma int_add_from_zero (n : Z) (d : value) :
  Py.int_add n d = match Py.int_add 0 d with Ok z => Ok (n + z) | Raise e => Raise e end.
Proof. destruct d; reflexivity. Qed.

Lemma ollama_complete_table (client : Ollama.Client) (messages : list value) (w : world) :
  OllamaModelWrapper.complete client messages w =
  match OllamaModelWrapper.chat_response client (model_name (self w)) messages with
  | Raise e => (Raise e, w)
  | Ok response =>
      match Py.getitem response (VStr "message") with
      | Raise e => (Raise e, w)
      | Ok resp_msg =>
          match Py.getitem resp_msg (VStr "content") with
          | Raise e => (Raise e, w)
          | Ok resp_content =>
              match OllamaModelWrapper.eval_count response with
              | Raise e => (Raise e, {| self := counted (self w); files := files w |})
              | Ok n =>
                  let me := bump (self w) n n in
                  match log_file (self w) with
                  | None => (Ok resp_content, {| self := me; files := files w |})
                  | Some path =>
                      match OllamaModelWrapper._openai_reformat_messages resp_msg with
                      | Raise e => (Raise e, {| self := me; files := files w |})
                      | Ok m =>
                          match files w !! path with
                          | Some Dir => (Raise (IsADirectoryError path),
                                         {| self := me; files := files w |})
                          | _ => (Ok resp_content,
                                  {| self := me;
                                     files := logged (files w) (Some path)
                                                (messages ++ [m]) |})
                          end
                      end
                  end
              end
          end
      end
  end.
Proof.
  unfold OllamaModelWrapper.complete, OllamaModelWrapper.chat_response,
    OllamaModelWrapper.eval_count, write_log, append_file, logged, file_text, bump, counted.
  unfold_m. cbn.
  destruct (OllamaModelWrapper._ollama_reformat_messages messages) as [oms|e]; cbn;
    [|reflexivity].
  destruct (Ollama.chat client _ oms) as [response|e]; cbn; [|reflexivity].
  destruct (Py.getitem response (VStr "message")) as [resp_msg|e]; cbn; [|reflexivity].
  destruct (Py.getitem resp_msg (VStr "content")) as [resp_content|e]; cbn; [|reflexivity].
  destruct (Py.getitem response (VStr "eval_count")) as [d|e]; cbn; [|reflexivity].
  rewrite (int_add_from_zero (input_tokens _)).
  destruct (Py.int_add 0 d) as [n|e] eqn:En; cbn; [|reflexivity].
  rewrite (int_add_from_zero (completion_tokens _)), En. cbn.
  destruct (log_file (self w)) as [path|]; cbn; [|reflexivity].
  destruct (OllamaModelWrapper._openai_reformat_messages resp_msg) as [m|e]; cbn;
    [|reflexivity].
  destruct (files w !! path) as [[old|]|]; reflexivity.
Qed.

Lemma exec_table (c : call OpenAI.Client) (w : world) :
  ModelWrapper.exec c w =
  match c with
  | Complete client messages =>
      let (r, w') := ModelWrapper.complete client messages w in (r ≫= λ _, Ok (), w')
  | StreamComplete client messages =>
      let (r, w') := ModelWrapper.stream_complete client messages w in (r ≫= λ _, Ok (), w')
  | StructuredComplete client messages sc =>
      let (r, w') := ModelWrapper.structured_complete client messages sc w in
      (r ≫= λ _, Ok (), w')
  end.
Proof.
  destruct c; unfold ModelWrapper.exec; unfold mbind at 1, M_bind at 1;
    match goal with |- context [let (_, _) := ?m in _] => destruct m as [[a|e] w'] end;
    reflexivity.
Qed.

(** Case analysis on everything that decides the outcome of a method body. *)
Ltac branches :=
  repeat match goal with
  | |- context [match ?x with _ => _ end] => destruct x eqn:?; cbn
  end.

Ltac exec_cases c :=
  rewrite exec_table;
  destruct c as [client messages | client messages | client messages sc]; cbn in *;
  [ rewrite complete_table | discriminate | rewrite structured_complete_table ].

(** ** Failures of the hosted-API methods *)

(** X5: when the client library raises, [complete], [stream_complete] and
    [structured_complete] raise the same exception and leave the counters
    and the files as they were: nothing is retried, nothing is counted. *)
Theorem backend_error_propagates (c : call OpenAI.Client) (w : world) (e : exn) :
  backend_outcome (model_name (self w)) c = Raise e ->
  ModelWrapper.exec c w = (Raise e, w).
Proof.
  intros H. rewrite exec_table.
  destruct c as [client messages | client messages | client messages sc]; cbn in H.
  - rewrite complete_table.
    destruct (OpenAI.chat_completions_create client _ messages); cbn in *; congruence.
  - unfold ModelWrapper.stream_complete. unfold_m. cbn.
    destruct (OpenAI.chat_completions_create_stream client _ messages); cbn in *;
      congruence.
  - rewrite structured_complete_table.
    destruct (OpenAI.beta_chat_completions_parse client _ messages sc); cbn in *;
      congruence.
Qed.

Lemma backend_error_propagates_witness :
  let w := fresh (OpenAIModelWrapper.init None (Some "log.json")) ∅ in
  ModelWrapper.exec (Complete (failing_client (ClientError "timeout")) user_hi) w
  = (Raise (ClientError "timeout"), w).
Proof.
  intros w.
  exact (backend_error_propagates
           (Complete (failing_client (ClientError "timeout")) user_hi) w
           (ClientError "timeout") eq_refl).
Defined.



(** X7: a response with usage figures but no choice makes [complete] and
    [structured_complete] raise [IndexError] after the whole accounting:
    the request and both token deltas are counted and no file is touched,
    with or without a log file. *)
Theorem no_choice_after_accounting (c : call OpenAI.Client) (w : world)
    (response : OpenAI.ChatCompletion) (u : OpenAI.CompletionUsage) :
  ModelWrapper.reported_usage (model_name (self w)) c = Ok response ->
  OpenAI.usage response = Some u ->
  OpenAI.choices response = [] ->
  ModelWrapper.exec c w
  = (Raise IndexError,
     {| self := bump (self w) (OpenAI.prompt_tokens u) (OpenAI.completion_tokens u);
        files := files w |}).
Proof.
  intros Hr Hu Hc.
  exec_cases c; rewrite Hr, Hu; unfold ModelWrapper.first_choice; rewrite Hc; reflexivity.
Qed.

Lemma no_choice_after_accounting_witness :
  let u := {| OpenAI.prompt_tokens := 3; OpenAI.completion_tokens := 1 |} in
  let response := {| OpenAI.choices := []; OpenAI.usage := Some u |} in
  let w := fresh (OpenAIModelWrapper.init None (Some "log.json")) ∅ in
  ModelWrapper.exec (StructuredComplete (stub_client response) user_hi "Answer") w
  = (Raise IndexError, {| self := bump (self w) 3 1; files := files w |}).
Proof.
  intros u response w.
  exact (no_choice_after_accounting
           (StructuredComplete (stub_client response) user_hi "Answer") w response u
           eq_refl eq_refl eq_refl).
Defined.

(** X8: when the log file cannot be opened (its path is a directory),
    [complete] and [structured_complete] raise the error of [open] after
    the accounting: the counters have grown and the response is lost to the
    caller. *)
Theorem log_failure_after_accounting (c : call OpenAI.Client) (w : world)
    (response : OpenAI.ChatCompletion) (u : OpenAI.CompletionUsage)
    (ch : OpenAI.Choice) (path : string) :
  ModelWrapper.reported_usage (model_name (self w)) c = Ok response ->
  OpenAI.usage response = Some u ->
  ModelWrapper.first_choice response = Ok ch ->
  log_file (self w) = Some path ->
  files w !! path = Some Dir ->
  ModelWrapper.exec c w
  = (Raise (IsADirectoryError path),
     {| self := bump (self w) (OpenAI.prompt_tokens u) (OpenAI.completion_tokens u);
        files := files w |}).
Proof.
  intros Hr Hu Hc Hl Hd.
  exec_cases c; rewrite Hr, Hu, Hc, Hl, Hd; reflexivity.
Qed.

Lemma log_failure_after_accounting_witness :
  let response := stub_response (VStr "hello") (local_message "assistant" "hello") 3 1 in
  let w := fresh (OpenAIModelWrapper.init None (Some "logs")) {[ "logs" := Dir ]} in
  ModelWrapper.exec (Complete (stub_client response) user_hi) w
  = (Raise (IsADirectoryError "logs"), {| self := bump (self w) 3 1; files := files w |}).
Proof.
  intros response w.
  exact (log_failure_after_accounting (Complete (stub_client response) user_hi) w
           response {| OpenAI.prompt_tokens := 3; OpenAI.completion_tokens := 1 |}
           {| OpenAI.message := {| OpenAI.content := VStr "hello";
                                   OpenAI.dict := local_message "assistant" "hello" |} |}
           "logs" eq_refl eq_refl eq_refl eq_refl eq_refl).
Defined.

(** X9: when the two entry points of the client answer alike,
    [structured_complete] leaves the counters and the files exactly as
    [complete] does, on every path; [complete] returns the content of the
    message [structured_complete] returns. *)
Theorem structured_complete_like_complete (client : OpenAI.Client)
    (messages : list value) (sc : string) (w : world) :
  OpenAI.beta_chat_completions_parse client (model_name (self w)) messages sc
  = OpenAI.chat_completions_create client (model_name (self w)) messages ->
  snd (ModelWrapper.structured_complete client messages sc w)
  = snd (ModelWrapper.complete client messages w)
  /\ fst (ModelWrapper.complete client messages w)
     = (m ← fst (ModelWrapper.structured_complete client messages sc w);
        Ok (OpenAI.content m)).
Proof.
  intros H. rewrite complete_table, structured_complete_table, H.
  branches; split; reflexivity.
Qed.

Lemma structured_complete_like_complete_witness :
  let client :=
    stub_client (stub_response (VStr "hello") (local_message "assistant" "hello") 3 1) in
  let w := fresh (OpenAIModelWrapper.init None (Some "log.json")) ∅ in
  snd (ModelWrapper.structured_complete client user_hi "Answer" w)
  = snd (ModelWrapper.complete client user_hi w)
  /\ fst (ModelWrapper.complete client user_hi w)
     = (m ← fst (ModelWrapper.structured_complete client user_hi "Answer" w);
        Ok (OpenAI.content m)).
Proof.
  intros client w.
  exact (structured_complete_like_complete client user_hi "Answer" w eq_refl).
Defined.

(** ** Failures of the local wrapper *)

(** X10: when a message cannot be adapted or the local server raises,
    [complete] of the local wrapper raises that exception and changes
    nothing. *)
Theorem local_failure_before_response (client : Ollama.Client) (messages : list value)
    (w : world) (e : exn) :
  OllamaModelWrapper.chat_response client (model_name (self w)) messages = Raise e ->
  OllamaModelWrapper.complete client messages w = (Raise e, w).
Proof. intros H. rewrite ollama_complete_table, H. reflexivity. Qed.

Lemma local_failure_before_response_witness :
  let w := fresh (OllamaModelWrapper.init None (Some "log.json")) ∅ in
  OllamaModelWrapper.complete (failing_ollama (ClientError "refused")) user_hi w
  = (Raise (ClientError "refused"), w).
Proof.
  intros w.
  exact (local_failure_before_response (failing_ollama (ClientError "refused")) user_hi w
           (ClientError "refused") eq_refl).
Defined.

(** X11: a response of the local server with a message and a content but
    no usable [eval_count] makes [complete] raise after the request was
    counted: [requests] is one more, the token counters and the files are as
    before. *)
Theorem local_bad_eval_count_counts_request (client : Ollama.Client)
    (messages : list value) (w : world) (response resp_msg content : value) (e : exn) :
  OllamaModelWrapper.chat_response client (model_name (self w)) messages = Ok response ->
  Py.getitem response (VStr "message") = Ok resp_msg ->
  Py.getitem resp_msg (VStr "content") = Ok content ->
  OllamaModelWrapper.eval_count response = Raise e ->
  OllamaModelWrapper.complete client messages w
  = (Raise e, {| self := counted (self w); files := files w |}).
Proof.
  intros Hr Hm Hc He. rewrite ollama_complete_table, Hr, Hm, Hc, He. reflexivity.
Qed.

Lemma local_bad_eval_count_counts_request_witness :
  let response :=
    VDict [("message", local_message "assistant" "hello"); ("eval_count", VNone)] in
  let w := fresh (OllamaModelWrapper.init None None) ∅ in
  OllamaModelWrapper.complete (stub_ollama response) user_hi w
  = (Raise TypeError, {| self := counted (self w); files := files w |}).
Proof.
  intros response w.
  exact (local_bad_eval_count_counts_request (stub_ollama response) user_hi w response
           (local_message "assistant" "hello") (VStr "hello") TypeError
           eq_refl eq_refl eq_refl eq_refl).
Defined.

(** ** Traces with failures *)

Lemma follows_same_files (w : world) (me : wrapper) :
  model_name me = model_name (self w) ->
  log_file me = log_file (self w) ->
  follows w {| self := me; files := files w |}.
Proof.
  intros Hn Hl. repeat split; cbn; auto.
  intros path. exists EmptyString. now rewrite str_app_nil.
Qed.

Lemma follows_refl (w : world) : follows w w.
Proof.
  destruct w as [me fs]. now apply (follows_same_files {| self := me; files := fs |}).
Qed.

Lemma follows_logged (w : world) (me : wrapper) (path : string) (msg_copy : list value) :
  model_name me = model_name (self w) ->
  log_file me = log_file (self w) ->
  log_file (self w) = Some path ->
  files w !! path <> Some Dir ->
  follows w {| self := me; files := logged (files w) (Some path) msg_copy |}.
Proof.
  intros Hn Hl Hp Hd. unfold logged. repeat split; cbn; auto.
  - intros p Hne. apply lookup_insert_ne. congruence.
  - intros p Hdir. rewrite lookup_insert_ne; [assumption|]. congruence.
  - intros p. destruct (decide (path = p)) as [<-|Hne].
    + exists (log_line msg_copy). unfold file_text at 1. now rewrite lookup_insert_eq.
    + exists EmptyString. unfold file_text. rewrite lookup_insert_ne by assumption.
      now rewrite str_app_nil.
Qed.

Lemma follows_trans (w1 w2 w3 : world) : follows w1 w2 -> follows w2 w3 -> follows w1 w3.
Proof.
  intros (Hn & Hl & Ho & Hd & Ht) (Hn' & Hl' & Ho' & Hd' & Ht').
  repeat split.
  - congruence.
  - congruence.
  - intros p Hp. rewrite Ho', Ho; [reflexivity | assumption | congruence].
  - auto.
  - intros p. destruct (Ht p) as [s Hs]. destruct (Ht' p) as [s' Hs'].
    exists (s +:+ s'). now rewrite Hs', Hs, str_app_assoc.
Qed.

Lemma discard_world {A} (m : M A) (w w' : world) (r : result unit) :
  (m;; mret ()) w = (r, w') -> w' = snd (m w).
Proof. intros H. rewrite <- discard_snd, H. reflexivity. Qed.

Ltac follows_leaf :=
  cbn;
  first [ apply follows_refl
        | apply follows_same_files; reflexivity
        | apply follows_logged; [reflexivity | reflexivity | assumption | congruence] ].

(** One call, whatever its outcome. *)
Lemma exec_any (cls : class) (c : call (client_of cls)) (w w' : world) (r : result unit) :
  exec_of cls c w = (r, w') ->
  follows w w'
  /\ requests (stats (self w'))
     = requests (stats (self w)) + Z.b2z (answered cls (model_name (self w)) c).
Proof.
  intros Hex.
  assert (Hstream : forall client messages,
             c = StreamComplete client messages -> w' = w).
  { intros client messages ->.
    pose proof (stream_complete_same cls client messages w) as Hs.
    destruct cls; cbn in Hex, Hs;
      unfold ModelWrapper.exec, OllamaModelWrapper.exec in Hex;
      apply discard_world in Hex; congruence. }
  destruct c as [client messages | client messages | client messages sc].
  - destruct cls; cbn in *; unfold ModelWrapper.exec, OllamaModelWrapper.exec in Hex;
      apply discard_world in Hex; subst w'.
    1-3: rewrite complete_table; branches; (split; [follows_leaf | cbn; lia]).
    rewrite ollama_complete_table. branches; (split; [follows_leaf | cbn; lia]).
  - rewrite (Hstream client messages eq_refl). split; [apply follows_refl|].
    destruct cls; cbn; lia.
  - destruct cls; cbn in *; unfold ModelWrapper.exec, OllamaModelWrapper.exec in Hex;
      apply discard_world in Hex; subst w'.
    1-3: rewrite structured_complete_table; branches; (split; [follows_leaf | cbn; lia]).
    cbn. split; [apply follows_refl | lia].
Qed.

Lemma run_any (cls : class) (calls : list (call (client_of cls))) :
  forall (w w' : world) (outcomes : list (result unit)),
    run (exec_of cls) calls w = (outcomes, w') ->
    follows w w'
    /\ requests (stats (self w'))
       = requests (stats (self w))
         + Z.of_nat (length (List.filter (answered cls (model_name (self w))) calls)).
Proof.
  induction calls as [|c calls IH]; intros w w' outcomes Hrun; cbn in Hrun.
  - injection Hrun as <- <-. split; [apply follows_refl|]. cbn. lia.
  - destruct (exec_of cls c w) as [r w1] eqn:Hc.
    destruct (run (exec_of cls) calls w1) as [rs w2] eqn:Hrest.
    injection Hrun as <- <-.
    destruct (exec_any cls c w w1 r Hc) as (Hf & Hq).
    destruct (IH w1 w2 rs Hrest) as (Hf' & Hq').
    split; [eapply follows_trans; eassumption|].
    destruct Hf as (Hn & _). rewrite Hn in Hq'. cbn [List.filter].
    destruct (answered cls (model_name (self w)) c); cbn [Z.b2z length] in *;
      [rewrite Nat2Z.inj_succ|]; lia.
Qed.


(** A failed call that is counted, between a refused call and a streaming
    call that are not. *)
Example requests_after_failures :
  let no_usage := {| OpenAI.choices := []; OpenAI.usage := None |} in
  let calls :=
    [ Complete (failing_client (ClientError "timeout")) user_hi;
      Complete (stub_client no_usage) user_hi;
      StreamComplete (stub_client no_usage) user_hi ] in
  let run_ := run (exec_of ClsOpenAIModelWrapper) calls
                (fresh (OpenAIModelWrapper.init None None) ∅) in
  map completed (fst run_) = [false; false; true]
  /\ stats (self (snd run_))
     = {| requests := 1; input_tokens := 0; completion_tokens := 0 |}.
Proof. split; reflexivity. Qed.

(** X2: no trace of calls, whatever the outcomes, changes the model name
    or the log file of the wrapper, and every file only grows at its end:
    what a file held before is a prefix of what it holds after. *)
Theorem trace_appends_only (cls : class) (calls : list (call (client_of cls)))
    (w : world) :
  let w' := snd (run (exec_of cls) calls w) in
  model_name (self w') = model_name (self w)
  /\ log_file (self w') = log_file (self w)
  /\ forall path, exists suffix,
       file_text (files w') path = file_text (files w) path +:+ suffix.
Proof.
  intros w'. subst w'.
  destruct (run (exec_of cls) calls w) as [outcomes w'] eqn:Hrun.
  destruct (run_any cls calls w w' outcomes Hrun) as ((Hn & Hl & _ & _ & Ht) & _).
  auto.
Qed.

(** X3: no trace of calls, whatever the outcomes, creates, changes or
    removes a file other than the log file of the wrapper. *)
Theorem other_files_untouched (cls : class) (calls : list (call (client_of cls)))
    (w : world) (path : string) :
  log_file (self w) <> Some path ->
  files (snd (run (exec_of cls) calls w)) !! path = files w !! path.
Proof.
  intros Hp.
  destruct (run (exec_of cls) calls w) as [outcomes w'] eqn:Hrun.
  destruct (run_any cls calls w w' outcomes Hrun) as ((_ & _ & Ho & _) & _).
  now apply Ho.
Qed.

Lemma other_files_untouched_witness :
  let w := fresh (ModelWrapper.init "minicpm-v" (Some "log"))
             {[ "notes" := File "keep" ]} in
  files (snd (run (exec_of ClsOllamaModelWrapper) sample_calls w)) !! "notes"
  = files w !! "notes".
Proof.
  intros w.
  refine (other_files_untouched ClsOllamaModelWrapper sample_calls w "notes" _).
  discriminate.
Defined.

(** ** The log of a trace *)

Lemma lines_from_cons (s current rest : string) :
  no_newline s = true ->
  lines_from current (s +:+ String newline rest)
  = (current +:+ s) :: lines_from EmptyString rest.
Proof.
  revert current. induction s as [|c s IH]; intros current Hs.
  - rewrite str_app_nil. cbn. reflexivity.
  - cbn [no_newline] in Hs. apply andb_true_iff in Hs as [Hc Hs].
    apply negb_true_iff in Hc. rewrite str_app_cons. cbn [lines_from].
    rewrite Hc, IH by assumption.
    rewrite <- str_app_assoc. reflexivity.
Qed.

Lemma lines_log_text (records : list (list value)) :
  lines (log_text records) = map (fun r => Json.dumps (VList r) +:+ ",") records.
Proof.
  unfold lines. induction records as [|r records IH]; [reflexivity|].
  cbn [log_text foldr map]. fold (log_text records). unfold log_line.
  change (String "," (String newline EmptyString))
    with ("," +:+ String newline EmptyString).
  rewrite str_app_assoc, <- (str_app_assoc _ (String newline EmptyString)).
  change (String newline EmptyString +:+ log_text records)
    with (String newline (log_text records)).
  rewrite lines_from_cons by now rewrite no_newline_app, no_newline_dumps.
  now rewrite IH.
Qed.

Lemma exec_logged (cls : class) (c : call (client_of cls)) (w w' : world) (r : result unit) :
  exec_of cls c w = (r, w') ->
  implb (is_exchange c) (completed r) = true ->
  files w' = if is_exchange c
             then logged (files w) (log_file (self w))
                    (log_record cls (model_name (self w)) c)
             else files w.
Proof.
  intros Hex Hdone.
  destruct c as [client messages | client messages | client messages sc]; cbn in *.
  - destruct r as [[]|e]; [|discriminate].
    destruct cls; cbn in *;
      unfold ModelWrapper.exec, OllamaModelWrapper.exec in Hex;
      apply discard_ok in Hex as [out Hex].
    1-3: apply complete_ok in Hex as (resp & ch & u & Hr & Hc & _ & _ & _ & Hf & _);
         rewrite Hf, Hr; cbn; rewrite Hc; reflexivity.
    apply ollama_complete_ok in Hex as (resp & m & n & Hr & Hm & _ & _ & _ & Hl).
    unfold OllamaModelWrapper.response_message. rewrite Hr. cbn. rewrite Hm. cbn.
    destruct (log_file (self w)) as [path|]; [|exact Hl].
    destruct Hl as (m' & -> & _ & Hf). exact Hf.
  - pose proof (stream_complete_same cls client messages w) as Hs.
    destruct cls; cbn in Hex, Hs;
      unfold ModelWrapper.exec, OllamaModelWrapper.exec in Hex;
      apply discard_world in Hex; congruence.
  - destruct r as [[]|e]; [|discriminate].
    destruct cls; cbn in *;
      unfold ModelWrapper.exec, OllamaModelWrapper.exec in Hex;
      apply discard_ok in Hex as [out Hex].
    1-3: apply structured_complete_ok in Hex
           as (resp & ch & u & Hr & Hc & _ & _ & _ & Hf & _);
         rewrite Hf, Hr; cbn; rewrite Hc; reflexivity.
    discriminate Hex.
Qed.

Lemma run_logged (cls : class) (path : string) (calls : list (call (client_of cls))) :
  forall (w w' : world) (outcomes : list (result unit)),
    run (exec_of cls) calls w = (outcomes, w') ->
    exchanges_completed calls outcomes = true ->
    log_file (self w) = Some path ->
    file_text (files w') path
    = file_text (files w) path
      +:+ log_text (map (log_record cls (model_name (self w))) (exchanges calls)).
Proof.
  induction calls as [|c calls IH]; intros w w' outcomes Hrun Hdone Hp; cbn in Hrun.
  - injection Hrun as <- <-. cbn. now rewrite str_app_nil.
  - destruct (exec_of cls c w) as [r w1] eqn:Hc.
    destruct (run (exec_of cls) calls w1) as [rs w2] eqn:Hrest.
    injection Hrun as <- <-. cbn in Hdone.
    apply andb_true_iff in Hdone as [Hr Hrs].
    destruct (exec_any cls c w w1 r Hc) as ((Hn & Hl & _) & _).
    rewrite (IH w1 w2 rs Hrest Hrs) by congruence.
    rewrite (exec_logged cls c w w1 r Hc Hr), Hn, Hp.
    unfold exchanges. cbn [List.filter].
    destruct (is_exchange c); [|reflexivity].
    cbn [map log_text foldr]. unfold logged, file_text at 1.
    rewrite lookup_insert_eq. now rewrite str_app_assoc.
Qed.

(** X4: after a trace in which every exchange completed, on a wrapper
    whose log file was empty, the log file holds one line per exchange, in
    the order of the calls: the JSON text of the messages of that call and of
    its response message, then a comma. Streaming calls leave no line. *)
Theorem log_has_one_line_per_exchange (cls : class) (path : string)
    (calls : list (call (client_of cls))) (w w' : world) (outcomes : list (result unit)) :
  run (exec_of cls) calls w = (outcomes, w') ->
  exchanges_completed calls outcomes = true ->
  log_file (self w) = Some path ->
  empty_log (files w) path = true ->
  lines (file_text (files w') path)
  = map (fun c => Json.dumps (VList (log_record cls (model_name (self w)) c)) +:+ ",")
        (exchanges calls).
Proof.
  intros Hrun Hdone Hp He.
  rewrite (run_logged cls path calls w w' outcomes Hrun Hdone Hp).
  rewrite (empty_log_text _ _ He).
  change (EmptyString +:+ ?x) with x.
  now rewrite lines_log_text, map_map.
Qed.

Lemma log_has_one_line_per_exchange_witness :
  let w := fresh (ModelWrapper.init "minicpm-v" (Some "log")) ∅ in
  let run_ := run (exec_of ClsOllamaModelWrapper) sample_calls w in
  lines (file_text (files (snd run_)) "log")
  = map (fun c => Json.dumps (VList (log_record ClsOllamaModelWrapper "minicpm-v" c))
                  +:+ ",")
        (exchanges sample_calls).
Proof.
  intros w run_.
  exact (log_has_one_line_per_exchange ClsOllamaModelWrapper "log" sample_calls w
           (snd run_) (fst run_) (surjective_pairing _) eq_refl eq_refl eq_refl).
Defined.

(** ** The adapter to the local shape *)

Lemma dict_lookup_set_eq (d : list (string * value)) (k : string) (v : value) :
  Py.dict_lookup (Py.dict_set d k v) k = Some v.
Proof.
  induction d as [|[k' v'] d IH]; cbn.
  - now rewrite String.eqb_refl.
  - destruct (String.eqb k' k) eqn:E; cbn; rewrite E; [reflexivity | exact IH].
Qed.

Lemma dict_lookup_set_ne (d : list (string * value)) (k k' : string) (v : value) :
  k <> k' -> Py.dict_lookup (Py.dict_set d k v) k' = Py.dict_lookup d k'.
Proof.
  intros Hne. induction d as [|[k0 v0] d IH]; cbn.
  - apply String.eqb_neq in Hne. now rewrite Hne.
  - destruct (String.eqb k0 k) eqn:E; cbn.
    + apply String.eqb_eq in E. subst k0.
      apply String.eqb_neq in Hne. now rewrite Hne.
    + now rewrite IH.
Qed.

(** The dict the comprehension builds keeps, for each type, the part that
    came last. *)
Lemma parts_by_type_parts (parts : list content_part) :
  forall msg, exists msg',
    OllamaModelWrapper.parts_by_type (map part_value parts) msg = Ok msg'
    /\ Py.dict_lookup msg' "text"
       = match last_text parts with
         | Some t => Some (VStr t)
         | None => Py.dict_lookup msg "text"
         end
    /\ Py.dict_lookup msg' "image_url"
       = match last_image parts with
         | Some u => Some (VDict [("url", VStr u)])
         | None => Py.dict_lookup msg "image_url"
         end.
Proof.
  induction parts as [|p parts IH]; intros msg.
  - exists msg. cbn. auto.
  - destruct p as [t|u].
    + destruct (IH (Py.dict_set msg "text" (VStr t))) as (msg' & Hp & Ht & Hi).
      exists msg'. split; [exact Hp|]. cbn [last_text last_image].
      rewrite Ht, Hi. split.
      * destruct (last_text parts); [reflexivity | apply dict_lookup_set_eq].
      * destruct (last_image parts); [reflexivity | now apply dict_lookup_set_ne].
    + destruct (IH (Py.dict_set msg "image_url" (VDict [("url", VStr u)])))
        as (msg' & Hp & Ht & Hi).
      exists msg'. split; [exact Hp|]. cbn [last_text last_image].
      rewrite Ht, Hi. split.
      * destruct (last_text parts); [reflexivity | now apply dict_lookup_set_ne].
      * destruct (last_image parts); [reflexivity | apply dict_lookup_set_eq].
Qed.

Lemma reformat_message_parts (role : string) (parts : list content_part) :
  OllamaModelWrapper.reformat_message (canonical_message role (map part_value parts))
  = match last_text parts with
    | None => Raise (KeyError (VStr "text"))
    | Some t =>
        Ok (VDict ([("role", VStr role); ("content", VStr t)]
                   ++ match last_image parts with
                      | Some u => [("images", VList [VStr (Py.str_drop 22 u)])]
                      | None => []
                      end))
    end.
Proof.
  destruct (parts_by_type_parts parts []) as (msg & Hp & Ht & Hi).
  unfold OllamaModelWrapper.reformat_message, canonical_message.
  cbn. rewrite Hp. cbn.
  unfold OllamaModelWrapper.msg_get, Py.dict_contains. cbn. rewrite Ht, Hi.
  destruct (last_text parts) as [t|]; cbn; [|reflexivity].
  destruct (last_image parts) as [u|]; reflexivity.
Qed.

(** X12: on a message whose content is any list of text and image parts,
    the local message takes the text of the LAST text part as its content
    and the url of the LAST image part, less its first 22 characters, as its
    only image; with no image part there is no [images] key, and with no
    text part the adapter raises [KeyError] for "text". *)
Theorem reformat_takes_last_parts (role : string) (parts : list content_part) :
  OllamaModelWrapper._ollama_reformat_messages
    [canonical_message role (map part_value parts)]
  = match last_text parts with
    | None => Raise (KeyError (VStr "text"))
    | Some t =>
        Ok [VDict ([("role", VStr role); ("content", VStr t)]
                   ++ match last_image parts with
                      | Some u => [("images", VList [VStr (Py.str_drop 22 u)])]
                      | None => []
                      end)]
    end.
Proof.
  cbn [OllamaModelWrapper._ollama_reformat_messages].
  rewrite reformat_message_parts. destruct (last_text parts); reflexivity.
Qed.

(** Two texts and two images: the later ones win. *)
Example reformat_two_texts_two_images :
  OllamaModelWrapper._ollama_reformat_messages
    [canonical_message "user"
       [text_part "first"; image_part "data:image/png;base64,AAAA";
        text_part "second"; image_part "data:image/png;base64,BBBB"]]
  = Ok [VDict [("role", VStr "user"); ("content", VStr "second");
               ("images", VList [VStr "BBBB"])]].
Proof. reflexivity. Qed.

(** X13: [_ollama_reformat_messages] succeeds exactly when every message
    adapts, and then returns the adapted messages one for one, in order. *)
Theorem reformat_messages_pointwise (messages out : list value) :
  OllamaModelWrapper._ollama_reformat_messages messages = Ok out <->
  Forall2 (fun msg_raw o_msg => OllamaModelWrapper.reformat_message msg_raw = Ok o_msg)
          messages out.
Proof.
  revert out. induction messages as [|m messages IH]; intros out; cbn.
  - split.
    + intros [= <-]. constructor.
    + intros H. inversion H. reflexivity.
  - split.
    + intros H. apply result_bind_ok in H as (o & Ho & H).
      apply result_bind_ok in H as (os & Hos & [= <-]).
      constructor; [exact Ho | now apply IH].
    + intros H. inversion H as [|? o ? os Ho Hos]; subst.
      apply IH in Hos. rewrite Ho. cbn. rewrite Hos. reflexivity.
Qed.

(** X14: the first message that does not adapt makes the whole call raise
    its exception, whatever comes after it; nothing of the messages before
    it is returned. *)
Theorem reformat_messages_first_failure (good : list value) (bad : value)
    (rest out : list value) (e : exn) :
  OllamaModelWrapper._ollama_reformat_messages good = Ok out ->
  OllamaModelWrapper.reformat_message bad = Raise e ->
  OllamaModelWrapper._ollama_reformat_messages (good ++ bad :: rest) = Raise e.
Proof.
  revert out. induction good as [|m good IH]; intros out Hg Hb; cbn.
  - now rewrite Hb.
  - cbn in Hg. apply result_bind_ok in Hg as (o & Ho & Hg).
    apply result_bind_ok in Hg as (os & Hos & _).
    rewrite Ho. cbn. now rewrite (IH os Hos Hb).
Qed.

Lemma reformat_messages_first_failure_witness :
  OllamaModelWrapper._ollama_reformat_messages
    (user_hi ++ canonical_message "user" [image_part "data:image/png;base64,AAAA"]
             :: user_hi)
  = Raise (KeyError (VStr "text")).
Proof.
  exact (reformat_messages_first_failure user_hi
           (canonical_message "user" [image_part "data:image/png;base64,AAAA"])
           user_hi [local_message "user" "hi"] (KeyError (VStr "text"))
           eq_refl eq_refl).
Defined.

(** X15: adapting a message to the local shape and back keeps its role
    and the text of its last text part; the images are gone, and the content
    comes back as that one text part, not as a list of parts. *)
Theorem adapter_round_trip (role text : string) (parts : list content_part) :
  last_text parts = Some text ->
  (o_msg ← OllamaModelWrapper.reformat_message
             (canonical_message role (map part_value parts));
   OllamaModelWrapper._openai_reformat_messages o_msg)
  = Ok (VDict [("role", VStr role); ("content", text_part text)]).
Proof.
  intros Ht. rewrite reformat_message_parts, Ht. reflexivity.
Qed.

Lemma adapter_round_trip_witness :
  (o_msg ← OllamaModelWrapper.reformat_message
             (canonical_message "user"
                (map part_value
                   [Text "look"; ImageRef "data:image/png;base64,AAAA"]));
   OllamaModelWrapper._openai_reformat_messages o_msg)
  = Ok (VDict [("role", VStr "user"); ("content", text_part "look")]).
Proof.
  exact (adapter_round_trip "user" "look"
           [Text "look"; ImageRef "data:image/png;base64,AAAA"] eq_refl).
Defined.

Lemma str_drop_short (n : nat) (s : string) :
  (String.length s <= n)%nat -> Py.str_drop n s = EmptyString.
Proof.
  revert s. induction n as [|n IH]; intros [|c s] Hlen; cbn in *; try reflexivity; try lia.
  apply IH. lia.
Qed.

(** X16: an image url of 22 characters or fewer does not raise: the local
    message gets the empty string as its image. *)
Theorem short_url_gives_empty_image (role text url : string) :
  (String.length url <= 22)%nat ->
  OllamaModelWrapper.reformat_message
    (canonical_message role [text_part text; image_part url])
  = Ok (VDict [("role", VStr role); ("content", VStr text);
               ("images", VList [VStr EmptyString])]).
Proof.
  intros Hlen. rewrite reformat_message_image, str_drop_short by assumption. reflexivity.
Qed.

Lemma short_url_gives_empty_image_witness :
  OllamaModelWrapper.reformat_message
    (canonical_message "user" [text_part "hi"; image_part "http://x.org/a.png"])
  = Ok (VDict [("role", VStr "user"); ("content", VStr "hi");
               ("images", VList [VStr EmptyString])]).
Proof.
  refine (short_url_gives_empty_image "user" "hi" "http://x.org/a.png" _).
  vm_compute. lia.
Defined.

(** X17: for a data URL that [local_image_to_data_url] builds with a MIME
    type of 9 characters ("image/png", "image/gif", "image/bmp"), the image
    of the local message is exactly the base64 text. *)
Theorem nine_char_mime_payload_exact (role text mime_type payload : string) :
  String.length mime_type = 9%nat ->
  OllamaModelWrapper.reformat_message
    (canonical_message role
       [text_part text; image_part (local_image_to_data_url (Some mime_type) payload)])
  = Ok (VDict [("role", VStr role); ("content", VStr text);
               ("images", VList [VStr payload])]).
Proof.
  intros Hlen. rewrite reformat_message_image, header_stripped by assumption. reflexivity.
Qed.

Lemma nine_char_mime_payload_exact_witness :
  OllamaModelWrapper.reformat_message
    (canonical_message "user"
       [text_part "hi"; image_part (local_image_to_data_url (Some "image/png") "iVBORw0KGgo=")])
  = Ok (VDict [("role", VStr "user"); ("content", VStr "hi");
               ("images", VList [VStr "iVBORw0KGgo="])]).
Proof.
  exact (nine_char_mime_payload_exact "user" "hi" "image/png" "iVBORw0KGgo=" eq_refl).
Defined.

(** ** Streams *)

Lemma stream_wrapper_items_step (response : OpenAI.ChatCompletionChunk)
    (rest : list OpenAI.ChatCompletionChunk) (e : option exn) :
  stream_wrapper_items (response :: rest) e
  = match chunk_fragment response with
    | Ok fragment =>
        LazySeq (fragment :: items (stream_wrapper_items rest e))
                (raised (stream_wrapper_items rest e))
    | Raise x => LazySeq [] (Some x)
    end.
Proof.
  unfold chunk_fragment. cbn.
  destruct (Py.seq_index (OpenAI.chunk_choices response) 0); reflexivity.
Qed.

(** X18: [stream_wrapper] yields the fragments of the chunks before the
    first chunk that has no choice, then raises the [IndexError] of that
    chunk; the chunks after it are never read, and how the stream itself
    would have ended is lost. *)
Theorem stream_wrapper_stops_at_bad_chunk
    (good : list OpenAI.ChatCompletionChunk) (fragments : list value)
    (bad : OpenAI.ChatCompletionChunk) (rest : list OpenAI.ChatCompletionChunk)
    (end_of_stream : option exn) (e : exn) :
  map chunk_fragment good = map Ok fragments ->
  chunk_fragment bad = Raise e ->
  stream_wrapper (LazySeq (good ++ bad :: rest) end_of_stream)
  = LazySeq fragments (Some e).
Proof.
  unfold stream_wrapper. cbn [items raised].
  revert fragments. induction good as [|c good IH]; intros fragments Hg Hb.
  - destruct fragments; [|discriminate]. cbn [app].
    now rewrite stream_wrapper_items_step, Hb.
  - destruct fragments as [|f fragments]; [discriminate|].
    cbn in Hg. injection Hg as Hc Hg. cbn [app].
    rewrite stream_wrapper_items_step, Hc, (IH fragments Hg Hb). reflexivity.
Qed.

Lemma stream_wrapper_stops_at_bad_chunk_witness :
  stream_wrapper
    (LazySeq ([chunk_with [VStr "Hel"]; chunk_with [VStr "lo"]]
              ++ chunk_with [] :: [chunk_with [VStr "!"]]) None)
  = LazySeq [VStr "Hel"; VStr "lo"] (Some IndexError).
Proof.
  exact (stream_wrapper_stops_at_bad_chunk
           [chunk_with [VStr "Hel"]; chunk_with [VStr "lo"]] [VStr "Hel"; VStr "lo"]
           (chunk_with []) [chunk_with [VStr "!"]] None IndexError eq_refl eq_refl).
Defined.

(** X19: when every chunk has a choice, [stream_wrapper] yields one
    fragment per chunk, the content of the delta of its first choice, in
    the order of arrival, and ends as the stream ends: exhausted, or with
    the exception the stream raised. *)
Theorem stream_wrapper_yields_every_fragment
    (chunks : list OpenAI.ChatCompletionChunk) (fragments : list value)
    (end_of_stream : option exn) :
  map chunk_fragment chunks = map Ok fragments ->
  stream_wrapper (LazySeq chunks end_of_stream) = LazySeq fragments end_of_stream.
Proof.
  unfold stream_wrapper. cbn [items raised].
  revert fragments. induction chunks as [|c chunks IH]; intros fragments Hc.
  - destruct fragments; [reflexivity|discriminate].
  - destruct fragments as [|f fragments]; [discriminate|].
    cbn in Hc. injection Hc as Hf Hc.
    rewrite stream_wrapper_items_step, Hf, (IH fragments Hc). reflexivity.
Qed.

Lemma stream_wrapper_yields_every_fragment_witness :
  stream_wrapper
    (LazySeq [chunk_with [VStr "Hel"; VStr "other choice"]; chunk_with [VNone]]
             (Some (ClientError "connection lost")))
  = LazySeq [VStr "Hel"; VNone] (Some (ClientError "connection lost")).
Proof.
  exact (stream_wrapper_yields_every_fragment
           [chunk_with [VStr "Hel"; VStr "other choice"]; chunk_with [VNone]]
           [VStr "Hel"; VNone] (Some (ClientError "connection lost")) eq_refl).
Defined.

(** X20: [stream_complete] of the local wrapper does not raise at the call
    when a message cannot be adapted: the call still returns a generator,
    and the exception comes out of it at the first pull, with no fragment,
    whatever the server would have answered; counters and files are as
    before. *)
Theorem local_stream_defers_failure (client : Ollama.Client) (messages : list value)
    (w : world) (e : exn) :
  OllamaModelWrapper._ollama_reformat_messages messages = Raise e ->
  OllamaModelWrapper.stream_complete client messages w = (Ok (LazySeq [] (Some e)), w).
Proof.
  intros H. unfold OllamaModelWrapper.stream_complete. unfold_m. now rewrite H.
Qed.

Lemma local_stream_defers_failure_witness :
  let w := fresh (OllamaModelWrapper.init None None) ∅ in
  OllamaModelWrapper.stream_complete (streaming_ollama [local_chunk "Hi"])
    [canonical_message "user" []] w
  = (Ok (LazySeq [] (Some (KeyError (VStr "text")))), w).
Proof.
  intros w.
  exact (local_stream_defers_failure (streaming_ollama [local_chunk "Hi"])
           [canonical_message "user" []] w (KeyError (VStr "text")) eq_refl).
Defined.

Lemma local_stream_items (chunks : list value) (fragments : list value)
    (end_of_stream : option exn) :
  map local_chunk_fragment chunks = map Ok fragments ->
  OllamaModelWrapper.stream_items chunks end_of_stream = LazySeq fragments end_of_stream.
Proof.
  revert fragments. induction chunks as [|c chunks IH]; intros fragments Hc.
  - destruct fragments; [reflexivity|discriminate].
  - destruct fragments as [|f fragments]; [discriminate|].
    cbn in Hc. injection Hc as Hf Hc. cbn [OllamaModelWrapper.stream_items].
    unfold local_chunk_fragment in Hf. rewrite Hf, (IH fragments Hc). reflexivity.
Qed.

(** X21: when the messages adapt, the server opens a stream and every
    chunk holds a message with a content, [stream_complete] of the local
    wrapper yields one fragment per chunk, in order, ends as the stream ends
    and leaves the counters and the files untouched. *)
Theorem local_stream_yields_every_fragment (client : Ollama.Client)
    (messages ollama_messages : list value) (stream : lazy_seq value)
    (fragments : list value) (w : world) :
  OllamaModelWrapper._ollama_reformat_messages messages = Ok ollama_messages ->
  Ollama.chat_stream client (model_name (self w)) ollama_messages = Ok stream ->
  map local_chunk_fragment (items stream) = map Ok fragments ->
  OllamaModelWrapper.stream_complete client messages w
  = (Ok (LazySeq fragments (raised stream)), w).
Proof.
  intros Hm Hs Hf. unfold OllamaModelWrapper.stream_complete. unfold_m.
  rewrite Hm, Hs. now rewrite (local_stream_items _ _ _ Hf).
Qed.

Lemma local_stream_yields_every_fragment_witness :
  let w := fresh (OllamaModelWrapper.init None (Some "log")) ∅ in
  OllamaModelWrapper.stream_complete
    (streaming_ollama [local_chunk "Hel"; local_chunk "lo"]) user_hi w
  = (Ok (LazySeq [VStr "Hel"; VStr "lo"] None), w).
Proof.
  intros w.
  exact (local_stream_yields_every_fragment
           (streaming_ollama [local_chunk "Hel"; local_chunk "lo"]) user_hi
           [local_message "user" "hi"]
           (LazySeq [local_chunk "Hel"; local_chunk "lo"] None)
           [VStr "Hel"; VStr "lo"] w eq_refl eq_refl eq_refl).
Defined.

(** ** The price table on any model name *)

Lemma prefix_spec (a b : string) :
  String.prefix a b = true <-> exists rest, b = a +:+ rest.
Proof.
  revert b. induction a as [|c a IH]; intros b.
  - split; [intros _; exists b; reflexivity | destruct b; reflexivity].
  - destruct b as [|c' b]; cbn.
    + split; [discriminate | intros [rest H]; discriminate H].
    + destruct (Ascii.ascii_dec c c') as [<-|Hne].
      * split.
        -- intros H. apply IH in H as [rest H]. exists rest.
           now rewrite str_app_cons, H.
        -- intros [rest H]. rewrite str_app_cons in H. injection H as H.
           apply IH. eauto.
      * split; [discriminate|]. intros [rest H]. rewrite str_app_cons in H.
        injection H as H _. congruence.
Qed.

(** [needle in hay] holds exactly when [needle] occurs in [hay]. *)
Lemma str_in_spec (needle hay : string) :
  Py.str_in needle hay = true <-> occurs_in needle hay.
Proof.
  unfold occurs_in. induction hay as [|c hay IH].
  - cbn [Py.str_in]. rewrite orb_false_r. split.
    + intros H. apply prefix_spec in H as [rest H]. exists EmptyString, rest. exact H.
    + intros ([|? before] & after & H).
      * apply prefix_spec. exists after. exact H.
      * rewrite str_app_cons in H. discriminate H.
  - cbn [Py.str_in]. rewrite orb_true_iff. split.
    + intros [H | H].
      * apply prefix_spec in H as [rest H]. exists EmptyString, rest. exact H.
      * apply IH in H as (before & after & H).
        exists (String c before), after. now rewrite str_app_cons, H.
    + intros ([|c' before] & after & H).
      * left. apply prefix_spec. exists after. exact H.
      * right. rewrite str_app_cons in H. injection H as _ H. apply IH. eauto.
Qed.


(** X23: a name in which "gpt-35" occurs and "gpt-4o" does not is priced
    (0.0005/1000, 0.0015/1000) whatever else it holds: "mini" and the date
    "2024-08-06" count for the gpt-4o family only. *)
Theorem gpt35_price_ignores_mini (name : string) :
  occurs_in "gpt-35" name ->
  ~ occurs_in "gpt-4o" name ->
  ModelWrapper.lookup_prices name
  = Ok (Some (0.0005 / 1000)%float, Some (0.0015 / 1000)%float).
Proof.
  rewrite <- !str_in_spec. unfold ModelWrapper.lookup_prices.
  intros H35 H4o. apply not_true_is_false in H4o. now rewrite H4o, H35.
Qed.

Lemma gpt35_price_ignores_mini_witness :
  ModelWrapper.lookup_prices "my-gpt-35-turbo-mini"
  = Ok (Some (0.0005 / 1000)%float, Some (0.0015 / 1000)%float).
Proof.
  refine (gpt35_price_ignores_mini "my-gpt-35-turbo-mini" _ _).
  - exists "my-", "-turbo-mini". reflexivity.
  - intros H. apply str_in_spec in H. discriminate H.
Defined.

(** ** [human_readable_parse] *)

Lemma render_local_message (role content : string) :
  render_message (local_message role content) = Ok (role +:+ ":" +:+ nl +:+ content).
Proof. reflexivity. Qed.

Lemma concat_app (sep : string) (a b : list string) :
  a <> [] -> b <> [] ->
  String.concat sep (a ++ b) = String.concat sep a +:+ sep +:+ String.concat sep b.
Proof.
  intros Ha Hb. induction a as [|x a IH]; [congruence|].
  destruct a as [|y a].
  - cbn [app String.concat]. destruct b; [congruence|reflexivity].
  - change ((x :: y :: a) ++ b) with (x :: (y :: a) ++ b).
    change (String.concat sep (x :: (y :: a) ++ b))
      with (x +:+ sep +:+ String.concat sep ((y :: a) ++ b)).
    rewrite IH by discriminate.
    change (String.concat sep (x :: y :: a))
      with (x +:+ sep +:+ String.concat sep (y :: a)).
    now rewrite <- !str_app_assoc.
Qed.

Lemma render_messages_app (a b : list value) :
  render_messages (a ++ b)
  = (ta ← render_messages a; tb ← render_messages b; Ok (ta ++ tb)).
Proof.
  induction a as [|m a IH]; cbn.
  - destruct (render_messages b); reflexivity.
  - destruct (render_message m); cbn; [|reflexivity].
    rewrite IH. destruct (render_messages a); cbn; [|reflexivity].
    destruct (render_messages b); reflexivity.
Qed.

Lemma render_messages_nonempty (a : list value) (texts : list string) :
  render_messages a = Ok texts -> a <> [] -> texts <> [].
Proof.
  destruct a as [|m a]; [congruence|]. cbn. intros H _.
  apply result_bind_ok in H as (t & _ & H).
  apply result_bind_ok in H as (ts & _ & [= <-]). discriminate.
Qed.

(** X24: the rendering of two message lists put end to end is the
    rendering of the first, a newline, and the rendering of the second,
    when neither list is empty and both render. *)
Theorem human_readable_parse_app (a b : list value) (ta tb : string) :
  a <> [] -> b <> [] ->
  human_readable_parse a = Ok ta ->
  human_readable_parse b = Ok tb ->
  human_readable_parse (a ++ b) = Ok (ta +:+ nl +:+ tb).
Proof.
  unfold human_readable_parse. intros Ha Hb Hta Htb.
  apply result_bind_ok in Hta as (xs & Hxs & [= <-]).
  apply result_bind_ok in Htb as (ys & Hys & [= <-]).
  rewrite render_messages_app, Hxs, Hys. cbn.
  rewrite concat_app; [reflexivity | |];
    eapply render_messages_nonempty; eassumption.
Qed.

Lemma human_readable_parse_app_witness :
  human_readable_parse ([local_message "user" "hi"] ++ [local_message "assistant" "yo"])
  = Ok (("user:" +:+ nl +:+ "hi") +:+ nl +:+ ("assistant:" +:+ nl +:+ "yo")).
Proof.
  refine (human_readable_parse_app [local_message "user" "hi"]
            [local_message "assistant" "yo"] _ _ _ _ eq_refl eq_refl);
    discriminate.
Defined.

(** X25: the rendering does not tell where a message ends: one message
    whose content goes on with a newline, a role, a colon and a newline
    renders as two messages do. *)
Theorem human_readable_parse_merges (role content role' content' : string) :
  human_readable_parse
    [local_message role (content +:+ nl +:+ role' +:+ ":" +:+ nl +:+ content')]
  = human_readable_parse [local_message role content; local_message role' content'].
Proof.
  unfold human_readable_parse. cbn [render_messages].
  rewrite !render_local_message. cbn.
  now rewrite <- !str_app_assoc.
Qed.

(** X26: the first message that has no role or no content makes
    [human_readable_parse] raise its exception; nothing of what the messages
    before it rendered to is returned. *)
Theorem human_readable_parse_first_failure (good : list value) (bad : value)
    (rest : list value) (text : string) (e : exn) :
  human_readable_parse good = Ok text ->
  render_message bad = Raise e ->
  human_readable_parse (good ++ bad :: rest) = Raise e.
Proof.
  unfold human_readable_parse. intros Hg Hb.
  apply result_bind_ok in Hg as (ts & Hts & _).
  rewrite render_messages_app, Hts. cbn. now rewrite Hb.
Qed.

Lemma human_readable_parse_first_failure_witness :
  human_readable_parse
    ([local_message "user" "hi"] ++ VDict [("role", VStr "assistant")]
     :: [local_message "user" "bye"])
  = Raise (KeyError (VStr "content")).
Proof.
  exact (human_readable_parse_first_failure [local_message "user" "hi"]
           (VDict [("role", VStr "assistant")]) [local_message "user" "bye"]
           ("user:" +:+ nl +:+ "hi") (KeyError (VStr "content")) eq_refl eq_refl).
Defined.

(** How values other than strings are rendered. *)
Example repr_samples :
  Repr.repr (VList [VStr "it's"; VStr "plain"; VDict [("k", VNone); ("n", VInt (-3))];
                    VStr (String "009"%char (String "255"%char (String "160"%char "'")))])
  = String "[" (String Json.dquote ("it's" +:+ String Json.dquote
      ", 'plain', {'k': None, 'n': -3}, " +:+ String Json.dquote
      ("\t" +:+ String "255"%char ("\xa0'" +:+ String Json.dquote "]")))).
Proof. vm_compute. reflexivity. Qed.

(** A message in the shape of the hosted API renders its list of parts as
    Python prints a list. *)
Example human_readable_parse_canonical :
  human_readable_parse user_hi
  = Ok ("user:" +:+ nl +:+ "[{'type': 'text', 'text': 'hi'}]").
Proof. reflexivity. Qed.
